(** * Workflow health pipeline: a shallow embedding

    The development follows the three source files of the repository:
    - [apps/genkit/src/index.ts]: the zod schemas, the two retrieval tools
      [fetchWorkflows] and [fetchWorkflowRuns], and [workflowHealthFlow];
    - the root component of the web client: [workflowHealthMutation];
    - the roast card component (presentation only, nothing to embed).

    JavaScript strings are modelled by [string] (code units below 256),
    JSON numbers by [Z] (the code copies them and never computes on them),
    promises that reject and [throw] by the [Throw] outcome of the [Eff]
    monad, and console, network and stream effects by the events a
    computation appends to its trace. *)

From Stdlib Require Import String Ascii List ZArith Lia Bool QArith.
From Stdlib Require DecimalString.
Import ListNotations.
Local Open Scope string_scope.
Local Open Scope list_scope.
Local Open Scope Z_scope.

(** ** JavaScript strings *)

Module JsString.

(** The double quote, kept apart so that no literal has to escape it. *)
Definition dq : string := String (ascii_of_nat 34) EmptyString.

(** Line feed. *)
Definition lf : string := String (ascii_of_nat 10) EmptyString.

(** [`${n}`] for an integral number. *)
Definition of_number (n : Z) : string :=
  DecimalString.NilZero.string_of_int (Z.to_int n).

(** [String.prototype.split] with a one character separator: the
    result is never empty, and an empty input gives one empty piece. *)
Fixpoint split (sep : ascii) (s : string) : list string :=
  match s with
  | EmptyString => [EmptyString]
  | String c rest =>
      if Ascii.eqb c sep then EmptyString :: split sep rest
      else match split sep rest with
           | [] => [String c EmptyString]
           | piece :: pieces => String c piece :: pieces
           end
  end.

(** White space and line terminators of ECMAScript that fit in one
    code unit below 256: TAB, LF, VT, FF, CR, SP and NBSP. *)
Definition is_white_space (c : ascii) : bool :=
  let n := nat_of_ascii c in
  ((9 <=? n)%nat && (n <=? 13)%nat) || (n =? 32)%nat || (n =? 160)%nat.

Fixpoint trimStart (s : string) : string :=
  match s with
  | EmptyString => EmptyString
  | String c rest => if is_white_space c then trimStart rest else s
  end.

Fixpoint trimEnd (s : string) : string :=
  match s with
  | EmptyString => EmptyString
  | String c rest =>
      match trimEnd rest with
      | EmptyString => if is_white_space c then EmptyString
                       else String c EmptyString
      | kept => String c kept
      end
  end.

(** [String.prototype.trim]. *)
Definition trim (s : string) : string := trimEnd (trimStart s).

(** [c] occurs in [s]. *)
Fixpoint contains (c : ascii) (s : string) : bool :=
  match s with
  | EmptyString => false
  | String d rest => Ascii.eqb d c || contains c rest
  end.

(** Array [join] with a separator. *)
Definition join (sep : string) (parts : list string) : string :=
  String.concat sep parts.

(** A template literal, given as its pieces in order. *)
Fixpoint template (parts : list string) : string :=
  match parts with
  | [] => EmptyString
  | part :: rest => String.append part (template rest)
  end.

End JsString.

(** ** Decoded JSON values *)

#[warnings="-register-all"]
Inductive json : Type :=
| JNull
| JBool (b : bool)
| JNum (n : Z)
| JStr (s : string)
| JArr (items : list json)
| JObj (props : list (string * json)).

(** Property access [o[k]]; [None] stands for [undefined]. *)
Fixpoint lookup (k : string) (props : list (string * json)) : option json :=
  match props with
  | [] => None
  | (k', v) :: rest => if String.eqb k k' then Some v else lookup k rest
  end.

(** The type names zod reports for a received value. *)
Definition typeOf (v : option json) : string :=
  match v with
  | None => "undefined"
  | Some JNull => "null"
  | Some (JBool _) => "boolean"
  | Some (JNum _) => "number"
  | Some (JStr _) => "string"
  | Some (JArr _) => "array"
  | Some (JObj _) => "object"
  end.

(** ** Errors and effects *)

Inductive PathItem : Type :=
| Key (k : string)
| Index (i : nat).

(** A zod [invalid_type] issue. *)
Record ZodIssue : Type := {
  issue_path : list PathItem;
  issue_expected : string;
  issue_received : string
}.

(** What the code throws: plain [Error]s built with [new Error(message)],
    the [ZodError] of [schema.parse], and errors raised by the runtime
    (a rejected [fetch], [response.json()] on a body that is not JSON, a
    failed generation, the error with which a callable reports to its
    client that the deployed function threw). *)
Inductive JsError : Type :=
| Error (message : string)
| ZodError (issues : list ZodIssue)
| SyntaxError (message : string)
| TypeError (message : string)
| GenkitError (status : string) (message : string)
| FunctionsError (code : string) (message : string).

Inductive outcome (A : Type) : Type :=
| Ok (value : A)
| Throw (e : JsError).
Arguments Ok {A} value.
Arguments Throw {A} e.

Record HttpRequest : Type := {
  req_url : string;
  req_headers : list (string * string)
}.

(** An argument of [console.log] that is not the whole line: a text or
    an object with its properties. *)
Inductive Logged : Type :=
| LogText (text : string)
| LogObject (props : list (string * string)).

(** Observable effects, in the order they happen.  [ConsoleLog] is a call
    of [console.log] with one string, [ConsoleLogArgs] a call with other
    arguments. *)
Inductive Event : Type :=
| ConsoleLog (line : string)
| ConsoleLogArgs (args : list Logged)
| HttpGet (req : HttpRequest)
| StreamChunk (chunk : string)
| CallableCall (name : string) (owner repo : string).

(** A computation: the events it performs and how it ends. *)
Definition Eff (A : Type) : Type := (list Event * outcome A)%type.

Definition ret {A} (a : A) : Eff A := ([], Ok a).

Definition throw {A} (e : JsError) : Eff A := ([], Throw e).

Definition emit (ev : Event) : Eff unit := ([ev], Ok tt).

Definition bind {A B} (m : Eff A) (f : A -> Eff B) : Eff B :=
  match snd m with
  | Ok a => (fst m ++ fst (f a), snd (f a))
  | Throw e => (fst m, Throw e)
  end.

Definition events {A} (m : Eff A) : list Event := fst m.
Definition result {A} (m : Eff A) : outcome A := snd m.

Declare Scope eff_scope.
Delimit Scope eff_scope with eff.
Notation "x <- m ;; k" := (bind m (fun x => k))
  (at level 61, m at next level, right associativity) : eff_scope.
Notation "m ;; k" := (bind m (fun _ => k))
  (at level 61, right associativity) : eff_scope.
Local Open Scope eff_scope.

(** Awaiting [f x] for each element in turn: the traversal stops at the
    first element that throws. *)
Fixpoint mapM {A B} (f : A -> Eff B) (xs : list A) : Eff (list B) :=
  match xs with
  | [] => ret []
  | x :: rest => y <- f x ;; ys <- mapM f rest ;; ret (y :: ys)
  end.

(** [for (const x of xs) f(x)]. *)
Fixpoint forEach {A} (f : A -> Eff unit) (xs : list A) : Eff unit :=
  match xs with
  | [] => ret tt
  | x :: rest => f x ;; forEach f rest
  end.

(** ** Zod schemas

    A schema validates a received value ([None] is [undefined]) found at
    a path and either yields the typed value or the issues it found.
    [z.object] and [z.array] visit every field and element and gather
    all their issues; [parse] throws a [ZodError] when there is one. *)

Inductive Validation (A : Type) : Type :=
| Valid (value : A)
| Invalid (issues : list ZodIssue).
Arguments Valid {A} value.
Arguments Invalid {A} issues.

Definition Schema (A : Type) : Type :=
  list PathItem -> option json -> Validation A.

Definition invalid_type {A} (path : list PathItem) (expected : string)
  (v : option json) : Validation A :=
  Invalid [{| issue_path := path; issue_expected := expected;
              issue_received := typeOf v |}].

Definition vmap {A B} (f : A -> B) (v : Validation A) : Validation B :=
  match v with
  | Valid a => Valid (f a)
  | Invalid issues => Invalid issues
  end.

(** Applicative combination: issues of both sides are kept. *)
Definition vap {A B} (vf : Validation (A -> B)) (va : Validation A)
  : Validation B :=
  match vf, va with
  | Valid f, Valid a => Valid (f a)
  | Valid _, Invalid ia => Invalid ia
  | Invalid i, Valid _ => Invalid i
  | Invalid i, Invalid ia => Invalid (i ++ ia)
  end.

Notation "f <$> v" := (vmap f v) (at level 58, left associativity).
Notation "vf <*> va" := (vap vf va) (at level 58, left associativity).

Definition is_valid {A} (v : Validation A) : bool :=
  match v with Valid _ => true | Invalid _ => false end.

(** [z.number()] *)
Definition z_number : Schema Z := fun path v =>
  match v with
  | Some (JNum n) => Valid n
  | _ => invalid_type path "number" v
  end.

(** [z.string()] *)
Definition z_string : Schema string := fun path v =>
  match v with
  | Some (JStr s) => Valid s
  | _ => invalid_type path "string" v
  end.

(** [schema.nullable()]: [null] is accepted, [undefined] is not. *)
Definition z_nullable {A} (inner : Schema A) : Schema (option A) :=
  fun path v =>
    match v with
    | Some JNull => Valid None
    | _ => Some <$> inner path v
    end.

Fixpoint validate_items {A} (inner : Schema A) (path : list PathItem)
  (i : nat) (items : list json) : Validation (list A) :=
  match items with
  | [] => Valid []
  | item :: rest =>
      cons <$> inner (path ++ [Index i]) (Some item)
           <*> validate_items inner path (S i) rest
  end.

(** [z.array(inner)] *)
Definition z_array {A} (inner : Schema A) : Schema (list A) :=
  fun path v =>
    match v with
    | Some (JArr items) => validate_items inner path 0 items
    | _ => invalid_type path "array" v
    end.

(** The value a [z.object] schema hands to the schema of its key [k]. *)
Definition field {A} (path : list PathItem) (props : list (string * json))
  (k : string) (inner : Schema A) : Validation A :=
  inner (path ++ [Key k]) (lookup k props).

(** [schema.parse(data)] *)
Definition parse {A} (schema : Schema A) (data : json) : Eff A :=
  match schema [] (Some data) with
  | Valid a => ret a
  | Invalid issues => throw (ZodError issues)
  end.

(** ** The data model of [index.ts] *)

Record Workflow : Type := {
  wf_id : Z;
  wf_name : string;
  wf_path : string;
  wf_state : string;
  wf_created_at : string;
  wf_updated_at : string;
  wf_url : string;
  wf_html_url : string;
  wf_badge_url : string
}.

Record WorkflowRun : Type := {
  run_id : Z;
  run_name : string;
  run_status : string;
  run_conclusion : option string;
  run_workflow_id : Z;
  run_created_at : string;
  run_updated_at : string;
  run_run_started_at : option string;
  run_html_url : string
}.

Record WorkflowsResponse : Type := {
  wr_total_count : Z;
  wr_workflows : list Workflow
}.

Record WorkflowRunsResponse : Type := {
  rr_total_count : Z;
  rr_workflow_runs : list WorkflowRun
}.

Definition workflowSchema : Schema Workflow := fun path v =>
  match v with
  | Some (JObj o) =>
      Build_Workflow
        <$> field path o "id" z_number
        <*> field path o "name" z_string
        <*> field path o "path" z_string
        <*> field path o "state" z_string
        <*> field path o "created_at" z_string
        <*> field path o "updated_at" z_string
        <*> field path o "url" z_string
        <*> field path o "html_url" z_string
        <*> field path o "badge_url" z_string
  | _ => invalid_type path "object" v
  end.

Definition workflowRunSchema : Schema WorkflowRun := fun path v =>
  match v with
  | Some (JObj o) =>
      Build_WorkflowRun
        <$> field path o "id" z_number
        <*> field path o "name" z_string
        <*> field path o "status" z_string
        <*> field path o "conclusion" (z_nullable z_string)
        <*> field path o "workflow_id" z_number
        <*> field path o "created_at" z_string
        <*> field path o "updated_at" z_string
        <*> field path o "run_started_at" (z_nullable z_string)
        <*> field path o "html_url" z_string
  | _ => invalid_type path "object" v
  end.

Definition workflowsResponseSchema : Schema WorkflowsResponse := fun path v =>
  match v with
  | Some (JObj o) =>
      Build_WorkflowsResponse
        <$> field path o "total_count" z_number
        <*> field path o "workflows" (z_array workflowSchema)
  | _ => invalid_type path "object" v
  end.

Definition workflowRunsResponseSchema : Schema WorkflowRunsResponse :=
  fun path v =>
    match v with
    | Some (JObj o) =>
        Build_WorkflowRunsResponse
          <$> field path o "total_count" z_number
          <*> field path o "workflow_runs" (z_array workflowRunSchema)
    | _ => invalid_type path "object" v
    end.

(** ** The environment of a request *)

Record HttpResponse : Type := {
  resp_status : Z;
  resp_statusText : string;
  (** the decoded body, [None] when the body is not JSON *)
  resp_body : option json
}.

(** [response.ok]: the status is in the range 200 to 299. *)
Definition resp_ok (r : HttpResponse) : bool :=
  (200 <=? resp_status r) && (resp_status r <=? 299).

(** What the process sees from outside: the answers of api.github.com
    (a request that cannot be sent makes [fetch] reject) and the
    environment variable holding the token. *)
Record World : Type := {
  github : HttpRequest -> outcome HttpResponse;
  GITHUB_TOKEN : option string
}.

Definition console_log (line : string) : Eff unit := emit (ConsoleLog line).

(** [console.log(arg, ...)] *)
Definition console_log_args (args : list Logged) : Eff unit :=
  emit (ConsoleLogArgs args).

(** [await fetch(url, { headers })] *)
Definition fetch (w : World) (req : HttpRequest) : Eff HttpResponse :=
  emit (HttpGet req) ;; ([], github w req).

(** [await response.json()] *)
Definition response_json (r : HttpResponse) : Eff json :=
  match resp_body r with
  | Some data => ret data
  | None => throw (SyntaxError "Unexpected token in JSON")
  end.

(** An environment variable inside a template literal. *)
Definition env_string (v : option string) : string :=
  match v with
  | Some s => s
  | None => "undefined"
  end.

Definition githubHeaders (w : World) : list (string * string) :=
  [ ("Authorization", JsString.template ["Bearer "; env_string (GITHUB_TOKEN w)]);
    ("Accept", "application/vnd.github.v3+json");
    ("User-Agent", "GitHub-Workflow-Health-Checker") ].

(** ** The retrieval tools *)

Record RepoInput : Type := {
  owner : string;
  repo : string
}.

Record RunsInput : Type := {
  runs_owner : string;
  runs_repo : string;
  workflowId : Z
}.

Definition workflowsUrl (owner repo : string) : string :=
  JsString.template
    ["https://api.github.com/repos/"; owner; "/"; repo; "/actions/workflows"].

Definition workflowRunsUrl (owner repo : string) (workflowId : Z) : string :=
  JsString.template
    ["https://api.github.com/repos/"; owner; "/"; repo;
     "/actions/workflows/"; JsString.of_number workflowId;
     "/runs?per_page=100"].

(** The tool [fetchWorkflows]. *)
Definition fetchWorkflows (w : World) (input : RepoInput)
  : Eff (list Workflow) :=
  let owner := owner input in
  let repo := repo input in
  console_log (JsString.template ["Fetching workflows for "; owner; "/"; repo]) ;;
  response <- fetch w {| req_url := workflowsUrl owner repo;
                         req_headers := githubHeaders w |} ;;
  if negb (resp_ok response) then
    throw (Error (JsString.template
                    ["Failed to fetch workflows from GitHub: ";
                     resp_statusText response]))
  else
    data <- response_json response ;;
    parsed <- parse workflowsResponseSchema data ;;
    ret (map (fun workflow =>
                {| wf_id := wf_id workflow;
                   wf_name := wf_name workflow;
                   wf_path := wf_path workflow;
                   wf_state := wf_state workflow;
                   wf_created_at := wf_created_at workflow;
                   wf_updated_at := wf_updated_at workflow;
                   wf_url := wf_url workflow;
                   wf_html_url := wf_html_url workflow;
                   wf_badge_url := wf_badge_url workflow |})
             (wr_workflows parsed)).

(** The tool [fetchWorkflowRuns]: the hundred most recent runs, as the
    upstream lists them. *)
Definition fetchWorkflowRuns (w : World) (input : RunsInput)
  : Eff (list WorkflowRun) :=
  let owner := runs_owner input in
  let repo := runs_repo input in
  let workflowId := workflowId input in
  console_log (JsString.template
                 ["Fetching runs for workflow "; JsString.of_number workflowId;
                  " in "; owner; "/"; repo]) ;;
  response <- fetch w {| req_url := workflowRunsUrl owner repo workflowId;
                         req_headers := githubHeaders w |} ;;
  if negb (resp_ok response) then
    throw (Error (JsString.template
                    ["Failed to fetch workflow runs from GitHub: ";
                     resp_statusText response]))
  else
    data <- response_json response ;;
    parsed <- parse workflowRunsResponseSchema data ;;
    ret (map (fun run =>
                {| run_id := run_id run;
                   run_name := run_name run;
                   run_status := run_status run;
                   run_conclusion := run_conclusion run;
                   run_workflow_id := run_workflow_id run;
                   run_created_at := run_created_at run;
                   run_updated_at := run_updated_at run;
                   run_run_started_at := run_run_started_at run;
                   run_html_url := run_html_url run |})
             (rr_workflow_runs parsed)).

(** ** The instructions given to the reasoning engine

    The prompt of [workflowHealthFlow], line by line; the only parts that
    vary are the owner and the repository name. *)

Definition healthPrompt (owner repo : string) : string :=
  let dq := JsString.dq in
  let template := JsString.template in
  JsString.join JsString.lf
    [ "";
      "          You are an expert DevOps engineer and reliability analyst specializing in CI/CD pipeline health assessment.";
      "          ";
      template ["          Your task is to analyze GitHub Actions workflows for the repository ";
        dq; owner; "/"; repo; dq;
        " and provide a comprehensive health report."];
      "";
      "          Using the provided tools:";
      "          1. Fetch all workflows for the repository";
      "          2. For each workflow, fetch its recent run history (up to 100 runs)";
      "          3. Analyze the patterns to assess workflow health";
      "          ";
      "          For each workflow, provide:";
      "          - **Workflow Name**";
      "          - **Status**: Calculate as a percentage based on predicted future success rate:";
      template ["            * 80-100% = "; dq; "Healthy"; dq;
        " (represented by green circle badge)"];
      template ["            * 50-79% = "; dq; "Need Improvement"; dq;
        " (represented by yellow circle badge)"];
      template ["            * 0-49% = "; dq; "At Risk"; dq;
        " (represented by red circle badge)"];
      "          - **File Path**";
      "          - **Last Updated**: Date of last workflow update";
      "          - **Total Runs**: Total number of workflow runs in the history";
      "          - **Successful Runs**: Count of successful completions";
      "          - **Failed Runs**: Count of failures";
      "          - **Success Rate**: Percentage of successful runs (calculated)";
      "          - **Quick Summary**: A 2-3 line AI-generated summary highlighting:";
      "            * Recent trends (improving/degrading)";
      "            * Key issues if any (consistent failures, timeout patterns, specific branches)";
      "            * Recommendations for improvement if needed";
      "          ";
      "          Consider these factors for health prediction:";
      "          - Recent success/failure patterns (weight recent runs more heavily)";
      "          - Consistency of outcomes";
      "          - Time-based trends (getting better or worse)";
      "          - Failure clustering (multiple failures in sequence indicate instability)";
      "          ";
      "          Return the analysis in a clear, structured JSON format that can be easily parsed and displayed in a UI.";
      "          ";
      "          Format:";
      "          {";
      template ["            "; dq; "workflows"; dq; ": ["];
      "              {";
      template ["                "; dq; "name"; dq; ": "; dq; "Workflow Name";
        dq; ","];
      template ["                "; dq; "status"; dq; ": "; dq;
        "Healthy|Need Improvement|At Risk"; dq; ","];
      template ["                "; dq; "statusPercentage"; dq; ": 85,"];
      template ["                "; dq; "filePath"; dq; ": "; dq;
        ".github/workflows/ci.yml"; dq; ","];
      template ["                "; dq; "lastUpdated"; dq; ": "; dq;
        "2024-01-15T10:30:00Z"; dq; ","];
      template ["                "; dq; "totalRuns"; dq; ": 150,"];
      template ["                "; dq; "successfulRuns"; dq; ": 145,"];
      template ["                "; dq; "failedRuns"; dq; ": 5,"];
      template ["                "; dq; "successRate"; dq; ": 96.7,"];
      template ["                "; dq; "summary"; dq; ": "; dq;
        "Workflow is highly reliable with consistent success over the past 30 days. Recent trend shows improvement in build times. No critical issues detected.";
        dq];
      "              }";
      "            ]";
      "          }";
      "      " ].

(** ** Generation

    [ai.generateStream] belongs to the genkit library, not to the
    repository: the flow is written over any implementation of it.  The
    call receives the prompt, the two tools and the sampling temperature;
    the stream it returns is consumed by the flow's [for await] loop, which
    hands every chunk to [streamCallback], so the model passes the callback
    to the generation; awaiting [response] yields the final text or throws. *)

Record Tools : Type := {
  tool_fetchWorkflows : RepoInput -> Eff (list Workflow);
  tool_fetchWorkflowRuns : RunsInput -> Eff (list WorkflowRun)
}.

Record GenerateOptions : Type := {
  opt_prompt : string;
  opt_tools : Tools;
  opt_temperature : Q
}.

Definition StreamCallback : Type := string -> Eff unit.

Definition GenerateStream : Type :=
  GenerateOptions -> StreamCallback -> Eff string.

(** [workflowHealthFlow]: one generation with the prompt and the two
    tools; every chunk goes to the callback, the final text is logged and
    returned.  Nothing is caught and nothing is computed from the runs. *)
Definition workflowHealthFlow (generateStream : GenerateStream) (w : World)
  (input : RepoInput) (streamCallback : StreamCallback) : Eff string :=
  let owner := owner input in
  let repo := repo input in
  text <- generateStream
            {| opt_prompt := healthPrompt owner repo;
               opt_tools := {| tool_fetchWorkflows := fetchWorkflows w;
                               tool_fetchWorkflowRuns := fetchWorkflowRuns w |};
               opt_temperature := 3 # 10 |}
            streamCallback ;;
  console_log_args [LogObject [("text", text)]] ;;
  ret text.

(** The flow's [inputSchema]: an object with two strings, of any content. *)
Definition flowInputSchema : Schema RepoInput := fun path v =>
  match v with
  | Some (JObj o) =>
      Build_RepoInput
        <$> field path o "owner" z_string
        <*> field path o "repo" z_string
  | _ => invalid_type path "object" v
  end.

(** *** genkit's tool loop

    The engine behind [generateStream] is a language model driven by
    genkit; neither is part of the repository, and this is a model of
    how genkit runs a generation with tools.  In each turn the model sees
    the prompt and the tool results gathered so far and either asks for
    tool calls or gives its final text (or the generation fails); genkit
    runs the requested tools, here one after the other, and feeds their
    outputs back, for at most [maxTurns] rounds of tool calls, a setting
    the flow leaves at genkit's default of five.  A tool that throws is
    not answered to the model: the error leaves the generation.  The
    model samples its output at the requested temperature: [sample]
    stands for the draws of one request.

    The model is one of outcomes.  Its trace is a simplification: genkit
    starts the tool calls of a turn together, so that requests of later
    calls are sent even when an earlier one throws, it also streams
    chunks for the tool results, and the calls of the engine to its own
    service are not events here. *)

Inductive ToolRequest : Type :=
| CallFetchWorkflows (input : RepoInput)
| CallFetchWorkflowRuns (input : RunsInput).

Inductive ToolResponse : Type :=
| WorkflowsOutput (workflows : list Workflow)
| WorkflowRunsOutput (runs : list WorkflowRun).

Definition History : Type := list (ToolRequest * ToolResponse).

Inductive ModelTurn : Type :=
| ToolRequests (chunks : list string) (requests : list ToolRequest)
| FinalAnswer (chunks : list string) (text : string)
| GenerationFailure (chunks : list string) (e : JsError).

Record Engine : Type := {
  respond : nat -> string -> Q -> History -> ModelTurn;
  maxTurns : nat
}.

Definition runTool (tools : Tools) (request : ToolRequest) : Eff ToolResponse :=
  match request with
  | CallFetchWorkflows input =>
      workflows <- tool_fetchWorkflows tools input ;;
      ret (WorkflowsOutput workflows)
  | CallFetchWorkflowRuns input =>
      runs <- tool_fetchWorkflowRuns tools input ;;
      ret (WorkflowRunsOutput runs)
  end.

Fixpoint generateLoop (engine : Engine) (sample : nat)
  (options : GenerateOptions) (onChunk : StreamCallback)
  (turns : nat) (history : History) : Eff string :=
  match respond engine sample (opt_prompt options)
                (opt_temperature options) history with
  | FinalAnswer chunks text => forEach onChunk chunks ;; ret text
  | GenerationFailure chunks e => forEach onChunk chunks ;; throw e
  | ToolRequests chunks requests =>
      forEach onChunk chunks ;;
      match turns with
      | O => throw (GenkitError "ABORTED"
                      (JsString.template
                         ["Exceeded maximum tool call iterations (";
                          JsString.of_number (Z.of_nat (maxTurns engine)); ")"]))
      | S turns' =>
          responses <- mapM (runTool (opt_tools options)) requests ;;
          generateLoop engine sample options onChunk turns'
            (history ++ combine requests responses)
      end
  end.

Definition genkitGenerateStream (engine : Engine) (sample : nat)
  : GenerateStream :=
  fun options onChunk =>
    generateLoop engine sample options onChunk (maxTurns engine) [].

(** The callback genkit gives to the flow: each chunk goes to the caller. *)
Definition sendChunk : StreamCallback := fun chunk => emit (StreamChunk chunk).

(** ** The web client: [workflowHealthMutation] *)

Record HttpsCallableResult : Type := {
  data : string
}.

Definition Callable : Type := RepoInput -> Eff HttpsCallableResult.

(** [!v] for a value that is a string or [undefined]. *)
Definition falsy (v : option string) : bool :=
  match v with
  | None => true
  | Some s => String.eqb s ""
  end.

(** The string behind a value the guard has shown to be defined. *)
Definition narrowed (v : option string) : string :=
  match v with
  | Some s => s
  | None => ""
  end.

Definition invalidRepositoryMessage : string :=
  "Please enter a valid repository in format: owner/repo".

(** The [mutationFn] of [workflowHealthMutation]. *)
Definition mutationFn (callable : Callable) (repoInput : string) : Eff string :=
  let parts := map JsString.trim (JsString.split "/" repoInput) in
  let owner := nth_error parts 0 in
  let repo := nth_error parts 1 in
  if falsy owner || falsy repo then
    throw (Error invalidRepositoryMessage)
  else
    result <- callable {| owner := narrowed owner; repo := narrowed repo |} ;;
    console_log_args [LogText "Workflow health result:";
                      LogObject [("data", data result)]] ;;
    ret (data result).

(** What the client of a callable gets when the deployed function threw
    an error that is no [HttpsError], as all the errors of the flow are:
    the transport keeps neither its class nor its message. *)
Definition internalError : JsError := FunctionsError "functions/internal" "INTERNAL".

(** [httpsCallable(functions, name)] over a deployed function: the value
    the function returns comes back as [data]; if it throws, the call
    rejects with [internalError]. *)
Definition httpsCallable (deployed : RepoInput -> Eff string) (name : string)
  : Callable :=
  fun input =>
    emit (CallableCall name (owner input) (repo input)) ;;
    (fst (deployed input),
     match snd (deployed input) with
     | Ok text => Ok {| data := text |}
     | Throw _ => Throw internalError
     end).

(** [workflowHealthFunction]: the flow exposed through [onCallGenkit]. *)
Definition workflowHealthFunction (generateStream : GenerateStream) (w : World)
  : RepoInput -> Eff string :=
  fun input => workflowHealthFlow generateStream w input sendChunk.

(** The whole path from the text typed in the client to the report. *)
Definition pipeline (generateStream : GenerateStream) (w : World)
  (repoInput : string) : Eff string :=
  mutationFn
    (httpsCallable (workflowHealthFunction generateStream w)
                   "workflowHealthFunction")
    repoInput.

(** ** The report asked of the engine

    The [Format] section of the prompt fixes the shape of the text the
    engine is asked for: one object per workflow.  The flow's own output
    schema is [z.string()]: the text is returned as it is. *)

Inductive Bucket : Type :=
| Healthy
| NeedImprovement
| AtRisk.

Record HealthAssessment : Type := {
  ha_name : string;
  ha_status : Bucket;
  ha_statusPercentage : Z;
  ha_filePath : string;
  ha_lastUpdated : string;
  ha_totalRuns : Z;
  ha_successfulRuns : Z;
  ha_failedRuns : Z;
  ha_successRate : Z;
  ha_summary : string
}.

Module Report.

Definition bucket_text (b : Bucket) : string :=
  match b with
  | Healthy => "Healthy"
  | NeedImprovement => "Need Improvement"
  | AtRisk => "At Risk"
  end.

(** JSON escaping of the quote and the backslash. *)
Fixpoint escape (s : string) : string :=
  match s with
  | EmptyString => EmptyString
  | String c rest =>
      if Ascii.eqb c (ascii_of_nat 34) || Ascii.eqb c (ascii_of_nat 92)
      then String (ascii_of_nat 92) (String c (escape rest))
      else String c (escape rest)
  end.

Definition quoted (s : string) : string :=
  JsString.template [JsString.dq; escape s; JsString.dq].

Definition member (k : string) (v : string) : string :=
  JsString.template [quoted k; ":"; v].

Definition render_assessment (a : HealthAssessment) : string :=
  JsString.template
    [ "{";
      JsString.join ","
        [ member "name" (quoted (ha_name a));
          member "status" (quoted (bucket_text (ha_status a)));
          member "statusPercentage" (JsString.of_number (ha_statusPercentage a));
          member "filePath" (quoted (ha_filePath a));
          member "lastUpdated" (quoted (ha_lastUpdated a));
          member "totalRuns" (JsString.of_number (ha_totalRuns a));
          member "successfulRuns" (JsString.of_number (ha_successfulRuns a));
          member "failedRuns" (JsString.of_number (ha_failedRuns a));
          member "successRate" (JsString.of_number (ha_successRate a));
          member "summary" (quoted (ha_summary a)) ];
      "}" ].

(** The text of a report: [{"workflows":[...]}]. *)
Definition render (assessments : list HealthAssessment) : string :=
  JsString.template
    [ "{"; member "workflows"
             (JsString.template
                ["["; JsString.join "," (map render_assessment assessments); "]"]);
      "}" ].

End Report.

(** ** Run histories *)

Definition is_success (r : WorkflowRun) : bool :=
  match run_conclusion r with
  | Some c => String.eqb c "success"
  | None => false
  end.

Definition is_failure (r : WorkflowRun) : bool :=
  match run_conclusion r with
  | Some c => String.eqb c "failure"
  | None => false
  end.

(** A completed run, for rate purposes: it succeeded or it failed. *)
Definition is_completed (r : WorkflowRun) : bool :=
  is_success r || is_failure r.

(** ISO 8601 instants in UTC compare as their texts do. *)
Definition created_before (a b : WorkflowRun) : bool :=
  String.leb (run_created_at a) (run_created_at b).

(** Oldest first. *)
Fixpoint chronological (runs : list WorkflowRun) : bool :=
  match runs with
  | [] => true
  | a :: rest =>
      match rest with
      | [] => true
      | b :: _ => created_before a b && chronological rest
      end
  end.

(** Newest first, the order of the upstream listing. *)
Definition newest_first (runs : list WorkflowRun) : bool :=
  chronological (rev runs).

Definition ordered_by_creation (runs : list WorkflowRun) : bool :=
  chronological runs || newest_first runs.

Fixpoint insert_newest_first (r : WorkflowRun) (sorted : list WorkflowRun)
  : list WorkflowRun :=
  match sorted with
  | [] => [r]
  | s :: rest =>
      if created_before s r then r :: sorted
      else s :: insert_newest_first r rest
  end.

Definition sort_newest_first (runs : list WorkflowRun) : list WorkflowRun :=
  fold_right insert_newest_first [] runs.

(** The [n] most recent completed runs exist and are all failures. *)
Definition recent_failure_streak (n : nat) (runs : list WorkflowRun) : bool :=
  let recent := firstn n (sort_newest_first (filter is_completed runs)) in
  (length recent =? n)%nat && forallb is_failure recent.

(** The counts of an assessment fit together. *)
Definition counts_consistent (a : HealthAssessment) : Prop :=
  ha_successfulRuns a + ha_failedRuns a <= ha_totalRuns a.

(** ** Record shapes, as the schemas declare them

    A second, declarative reading of [workflowSchema] and
    [workflowRunSchema]: the required keys and the primitive type of
    each.  A record is malformed when a key is missing, holds a value of
    another primitive type, or holds [null] where [null] is not allowed. *)

Inductive FieldType : Type :=
| TNumber
| TString
| TNullableString.

Definition conforms (t : FieldType) (v : option json) : bool :=
  match t, v with
  | TNumber, Some (JNum _) => true
  | TString, Some (JStr _) => true
  | TNullableString, Some (JStr _) => true
  | TNullableString, Some JNull => true
  | _, _ => false
  end.

Definition workflowShape : list (string * FieldType) :=
  [ ("id", TNumber); ("name", TString); ("path", TString);
    ("state", TString); ("created_at", TString); ("updated_at", TString);
    ("url", TString); ("html_url", TString); ("badge_url", TString) ].

Definition workflowRunShape : list (string * FieldType) :=
  [ ("id", TNumber); ("name", TString); ("status", TString);
    ("conclusion", TNullableString); ("workflow_id", TNumber);
    ("created_at", TString); ("updated_at", TString);
    ("run_started_at", TNullableString); ("html_url", TString) ].

Definition malformed (shape : list (string * FieldType)) (record : json) : bool :=
  match record with
  | JObj o => existsb (fun kt => negb (conforms (snd kt) (lookup (fst kt) o))) shape
  | _ => true
  end.

(** The payload is an object whose key [k] holds an array with [record]. *)
Definition lists_record (k : string) (payload : json) (record : json) : Prop :=
  exists o items,
    payload = JObj o /\ lookup k o = Some (JArr items) /\ In record items.

(** The JSON object a run was decoded from carries exactly its fields. *)
Definition nullable_json (v : option string) : json :=
  match v with
  | Some s => JStr s
  | None => JNull
  end.

Definition decoded_from (record : json) (run : WorkflowRun) : Prop :=
  exists o,
    record = JObj o /\
    lookup "id" o = Some (JNum (run_id run)) /\
    lookup "name" o = Some (JStr (run_name run)) /\
    lookup "status" o = Some (JStr (run_status run)) /\
    lookup "conclusion" o = Some (nullable_json (run_conclusion run)) /\
    lookup "workflow_id" o = Some (JNum (run_workflow_id run)) /\
    lookup "created_at" o = Some (JStr (run_created_at run)) /\
    lookup "updated_at" o = Some (JStr (run_updated_at run)) /\
    lookup "run_started_at" o = Some (nullable_json (run_run_started_at run)) /\
    lookup "html_url" o = Some (JStr (run_html_url run)).

(** ** An engine that follows the instructions

    It lists the workflows, asks for the runs of each, and then concludes
    as [conclude] decides from the sample and the gathered tool results. *)

Definition runsInputOf (input : RepoInput) (wf : Workflow) : RunsInput :=
  {| runs_owner := owner input; runs_repo := repo input;
     workflowId := wf_id wf |}.

Definition runsRequest (input : RepoInput) (wf : Workflow) : ToolRequest :=
  CallFetchWorkflowRuns (runsInputOf input wf).

Definition promptFollower (input : RepoInput)
  (conclude : nat -> History -> ModelTurn) : Engine :=
  {| respond := fun sample _ _ history =>
       match history with
       | [] => ToolRequests [] [CallFetchWorkflows input]
       | [(_, WorkflowsOutput (wf :: wfs))] =>
           ToolRequests [] (map (runsRequest input) (wf :: wfs))
       | _ => conclude sample history
       end;
     maxTurns := 5 |}.

(** The tool results such an engine has gathered when it concludes. *)
Definition gathered (input : RepoInput) (workflows : list Workflow)
  (runs : list (list WorkflowRun)) : History :=
  (CallFetchWorkflows input, WorkflowsOutput workflows)
    :: combine (map (runsRequest input) workflows)
               (map WorkflowRunsOutput runs).

Definition toolsOf (w : World) : Tools :=
  {| tool_fetchWorkflows := fetchWorkflows w;
     tool_fetchWorkflowRuns := fetchWorkflowRuns w |}.

(** What the turn that concludes makes of the generation. *)
Definition concluded (turn : ModelTurn) : option (outcome string) :=
  match turn with
  | FinalAnswer _ text => Some (Ok text)
  | GenerationFailure _ e => Some (Throw e)
  | ToolRequests _ _ => None
  end.

(** The options the flow passes to the generation. *)
Definition flowOptions (w : World) (input : RepoInput) : GenerateOptions :=
  {| opt_prompt := healthPrompt (owner input) (repo input);
     opt_tools := toolsOf w;
     opt_temperature := 3 # 10 |}.

(** Every entry of a history is what the tool returns for its request. *)
Definition genuine (tools : Tools) (history : History) : Prop :=
  Forall (fun entry => snd (runTool tools (fst entry)) = Ok (snd entry))
         history.

(** Fetching the runs of each listed workflow, in the listing order. *)
Definition fetchAllRuns (w : World) (input : RepoInput)
  (workflows : list Workflow) : Eff (list (list WorkflowRun)) :=
  mapM (fun wf => fetchWorkflowRuns w (runsInputOf input wf)) workflows.

(** ** Sample repositories *)

Module Sample.

Definition acme : RepoInput := {| owner := "acme"; repo := "widgets" |}.

Definition workflowJson (id : Z) (name path : string) : json :=
  JObj [ ("id", JNum id); ("name", JStr name); ("path", JStr path);
         ("state", JStr "active");
         ("created_at", JStr "2023-11-01T09:00:00Z");
         ("updated_at", JStr "2024-01-15T10:30:00Z");
         ("url", JStr "https://api.github.com/repos/acme/widgets/actions/workflows");
         ("html_url", JStr "https://github.com/acme/widgets/actions");
         ("badge_url", JStr "https://github.com/acme/widgets/badge.svg");
         ("node_id", JStr "W_1") ].

(** A run of workflow [wid] created on the given day of January 2024. *)
Definition day (d : Z) : string :=
  JsString.template
    [ "2024-01-"; if d <? 10 then "0" else ""; JsString.of_number d;
      "T10:30:00Z" ].

Definition runJson (wid : Z) (d : Z) (conclusion : json) : json :=
  JObj [ ("id", JNum (1000 * wid + d)); ("name", JStr "build");
         ("status", JStr "completed"); ("conclusion", conclusion);
         ("workflow_id", JNum wid);
         ("created_at", JStr (day d)); ("updated_at", JStr (day d));
         ("run_started_at", JStr (day d));
         ("html_url", JStr "https://github.com/acme/widgets/actions/runs") ].

Definition respond200 (body : json) : HttpResponse :=
  {| resp_status := 200; resp_statusText := "OK"; resp_body := Some body |}.

Definition respondError (status : Z) (statusText : string) : HttpResponse :=
  {| resp_status := status; resp_statusText := statusText;
     resp_body := Some (JObj [("message", JStr statusText)]) |}.

Definition workflowsPayload (workflows : list json) : json :=
  JObj [ ("total_count", JNum (Z.of_nat (length workflows)));
         ("workflows", JArr workflows) ].

Definition runsPayload (runs : list json) : json :=
  JObj [ ("total_count", JNum (Z.of_nat (length runs)));
         ("workflow_runs", JArr runs) ].

(** An upstream given by its routes; any other URL is not found. *)
Fixpoint route (routes : list (string * HttpResponse)) (url : string)
  : HttpResponse :=
  match routes with
  | [] => respondError 404 "Not Found"
  | (u, r) :: rest => if String.eqb u url then r else route rest url
  end.

Definition upstream (routes : list (string * HttpResponse)) : World :=
  {| github := fun req => Ok (route routes (req_url req));
     GITHUB_TOKEN := Some "ghp_token" |}.

Definition days (from : Z) (count : nat) : list Z :=
  map (fun i => from + Z.of_nat i) (seq 0 count).

(** One workflow, CI, with twenty runs listed newest first: the three
    most recent failed, the one before was cancelled, and the sixteen
    before that succeeded. *)
Definition ciRuns : list json :=
  map (fun d => runJson 1 d (JStr "failure")) [20; 19; 18]
  ++ [runJson 1 17 (JStr "cancelled")]
  ++ map (fun d => runJson 1 d (JStr "success")) (rev (days 1 16)).

Definition ciWorld : World :=
  upstream
    [ (workflowsUrl "acme" "widgets",
       respond200 (workflowsPayload [workflowJson 1 "CI" ".github/workflows/ci.yml"]));
      (workflowRunsUrl "acme" "widgets" 1, respond200 (runsPayload ciRuns)) ].


Definition ciAssessment (status : Bucket) (percentage total successful failed : Z)
  : HealthAssessment :=
  {| ha_name := "CI"; ha_status := status;
     ha_statusPercentage := percentage;
     ha_filePath := ".github/workflows/ci.yml";
     ha_lastUpdated := "2024-01-15T10:30:00Z";
     ha_totalRuns := total; ha_successfulRuns := successful;
     ha_failedRuns := failed; ha_successRate := percentage;
     ha_summary := "Mostly reliable." |}.

(** An engine that follows the instructions and then gives a fixed text. *)
Definition answering (text : string) : Engine :=
  promptFollower acme (fun _ _ => FinalAnswer [text] text).

(** Its counts do not fit: 17 + 4 is more than 20. *)
Definition miscounted : list HealthAssessment :=
  [ciAssessment NeedImprovement 75 20 17 4].

(** Healthy at 85 percent, whatever the last three runs were. *)
Definition optimistic : list HealthAssessment :=
  [ciAssessment Healthy 85 20 16 3].

Definition cautious : list HealthAssessment :=
  [ciAssessment AtRisk 40 20 16 3].


(** An engine that gathers the data and then fails to generate. *)
Definition unavailable : JsError :=
  GenkitError "UNAVAILABLE" "The model is overloaded. Please try again later.".

Definition speechless : Engine :=
  promptFollower acme (fun _ _ => GenerationFailure [] unavailable).

(** Three workflows; the upstream fails on the runs of the second. *)
Definition abcWorld : World :=
  upstream
    [ (workflowsUrl "acme" "widgets",
       respond200 (workflowsPayload
                     [ workflowJson 1 "A" ".github/workflows/a.yml";
                       workflowJson 2 "B" ".github/workflows/b.yml";
                       workflowJson 3 "C" ".github/workflows/c.yml" ]));
      (workflowRunsUrl "acme" "widgets" 1,
       respond200 (runsPayload [runJson 1 2 (JStr "success")]));
      (workflowRunsUrl "acme" "widgets" 2,
       respondError 500 "Internal Server Error");
      (workflowRunsUrl "acme" "widgets" 3,
       respond200 (runsPayload [runJson 3 2 (JStr "success")])) ].

(** Runs listed neither oldest first nor newest first. *)
Definition shuffledWorld : World :=
  upstream
    [ (workflowRunsUrl "acme" "widgets" 1,
       respond200 (runsPayload
                     [ runJson 1 2 (JStr "success");
                       runJson 1 1 (JStr "success");
                       runJson 1 3 (JStr "failure") ])) ].

(** A run without [id] among well-formed ones. *)
Definition runWithoutId : json :=
  JObj [ ("name", JStr "build"); ("status", JStr "completed");
         ("conclusion", JStr "success"); ("workflow_id", JNum 1);
         ("created_at", JStr (day 2)); ("updated_at", JStr (day 2));
         ("run_started_at", JNull);
         ("html_url", JStr "https://github.com/acme/widgets/actions/runs") ].

Definition brokenRunsWorld : World :=
  upstream
    [ (workflowRunsUrl "acme" "widgets" 1,
       respond200 (runsPayload
                     [ runJson 1 3 (JStr "success"); runWithoutId;
                       runJson 1 1 (JStr "success") ])) ].

(** A workflow whose [name] is [null]. *)
Definition workflowWithNullName : json :=
  JObj [ ("id", JNum 2); ("name", JNull); ("path", JStr ".github/workflows/b.yml");
         ("state", JStr "active");
         ("created_at", JStr "2023-11-01T09:00:00Z");
         ("updated_at", JStr "2024-01-15T10:30:00Z");
         ("url", JStr "https://api.github.com/repos/acme/widgets/actions/workflows");
         ("html_url", JStr "https://github.com/acme/widgets/actions");
         ("badge_url", JStr "https://github.com/acme/widgets/badge.svg") ].

Definition brokenWorkflowsWorld : World :=
  upstream
    [ (workflowsUrl "acme" "widgets",
       respond200 (workflowsPayload
                     [ workflowJson 1 "A" ".github/workflows/a.yml";
                       workflowWithNullName ])) ].

(** An upstream that answers every request with the same response. *)
Definition always (r : HttpResponse) : World :=
  {| github := fun _ => Ok r; GITHUB_TOKEN := Some "ghp_token" |}.

Definition runsOf (w : World) (wid : Z) : Eff (list WorkflowRun) :=
  fetchWorkflowRuns w {| runs_owner := "acme"; runs_repo := "widgets";
                         workflowId := wid |}.

(** A workflow and a run as api.github.com lays them out: the keys of
    the schemas among others, in the order of the service. *)
Definition octocat : RepoInput := {| owner := "octocat"; repo := "hello-world" |}.

Definition githubWorkflow : json :=
  JObj [ ("id", JNum 161335);
         ("node_id", JStr "MDg6V29ya2Zsb3cxNjEzMzU=");
         ("name", JStr "CI");
         ("path", JStr ".github/workflows/blank.yaml");
         ("state", JStr "active");
         ("created_at", JStr "2020-01-08T23:48:37.000-08:00");
         ("updated_at", JStr "2020-01-08T23:50:21.000-08:00");
         ("url", JStr "https://api.github.com/repos/octocat/hello-world/actions/workflows/161335");
         ("html_url", JStr "https://github.com/octocat/hello-world/blob/master/.github/workflows/161335");
         ("badge_url", JStr "https://github.com/octocat/hello-world/workflows/CI/badge.svg") ].

Definition githubRun : json :=
  JObj [ ("id", JNum 30433642);
         ("name", JStr "Build");
         ("node_id", JStr "MDEyOldvcmtmbG93IFJ1bjI2OTI4OQ==");
         ("head_branch", JStr "master");
         ("run_number", JNum 562);
         ("event", JStr "push");
         ("status", JStr "queued");
         ("conclusion", JNull);
         ("workflow_id", JNum 161335);
         ("url", JStr "https://api.github.com/repos/octocat/hello-world/actions/runs/30433642");
         ("html_url", JStr "https://github.com/octocat/hello-world/actions/runs/30433642");
         ("pull_requests", JArr []);
         ("created_at", JStr "2020-01-22T19:33:08Z");
         ("updated_at", JStr "2020-01-22T19:33:08Z");
         ("run_attempt", JNum 1);
         ("run_started_at", JStr "2020-01-22T19:33:08Z") ].

Definition githubWorld : World :=
  upstream
    [ (workflowsUrl "octocat" "hello-world",
       respond200 (workflowsPayload [githubWorkflow]));
      (workflowRunsUrl "octocat" "hello-world" 161335,
       respond200 (runsPayload [githubRun])) ].

(** A repository without an owner, and an engine that follows the
    instructions for it. *)
Definition nameless : RepoInput := {| owner := ""; repo := "widgets" |}.

Definition namelessFollower : Engine :=
  promptFollower nameless (fun _ _ => FinalAnswer ["{}"] "{}").

(** A callable that answers with a fixed text. *)
Definition echo (text : string) : Callable :=
  httpsCallable (fun _ => ret text) "workflowHealthFunction".

End Sample.


(** ** Repository identifiers *)

Definition slash : ascii := "/"%char.

(** An identifier that is not an [owner/repo] pair: it has no separator,
    or nothing before the first separator, or nothing between the first
    separator and the next separator or the end. *)
Inductive malformed_identifier : string -> Prop :=
| no_separator (s : string) :
    JsString.contains slash s = false -> malformed_identifier s
| empty_owner (rest : string) :
    malformed_identifier (String slash rest)
| empty_repo (owner : string) :
    JsString.contains slash owner = false ->
    malformed_identifier (owner ++ "/")%string
| empty_repo_before (owner rest : string) :
    JsString.contains slash owner = false ->
    malformed_identifier (owner ++ "//" ++ rest)%string.

(** What the client does once it has an owner and a repository name. *)
Definition callWith (callable : Callable) (owner repo : string) : Eff string :=
  result <- callable {| owner := owner; repo := repo |} ;;
  console_log_args [LogText "Workflow health result:";
                    LogObject [("data", data result)]] ;;
  ret (data result).

(** The requests the two tools send. *)
Definition workflowsRequest (w : World) (input : RepoInput) : HttpRequest :=
  {| req_url := workflowsUrl (owner input) (repo input);
     req_headers := githubHeaders w |}.

Definition workflowRunsRequest (w : World) (input : RunsInput) : HttpRequest :=
  {| req_url := workflowRunsUrl (runs_owner input) (runs_repo input)
                                (workflowId input);
     req_headers := githubHeaders w |}.

(** The messages of the errors thrown on a response that is not ok. *)
Definition workflowsFailure (r : HttpResponse) : JsError :=
  Error (JsString.template
           ["Failed to fetch workflows from GitHub: "; resp_statusText r]).

Definition workflowRunsFailure (r : HttpResponse) : JsError :=
  Error (JsString.template
           ["Failed to fetch workflow runs from GitHub: "; resp_statusText r]).

(** ** Payloads of well-formed records *)

(** The JSON object a workflow was decoded from carries its fields under
    the keys of the schema, in any order and among any other keys. *)
Definition workflow_decoded_from (record : json) (wf : Workflow) : Prop :=
  exists o,
    record = JObj o /\
    lookup "id" o = Some (JNum (wf_id wf)) /\
    lookup "name" o = Some (JStr (wf_name wf)) /\
    lookup "path" o = Some (JStr (wf_path wf)) /\
    lookup "state" o = Some (JStr (wf_state wf)) /\
    lookup "created_at" o = Some (JStr (wf_created_at wf)) /\
    lookup "updated_at" o = Some (JStr (wf_updated_at wf)) /\
    lookup "url" o = Some (JStr (wf_url wf)) /\
    lookup "html_url" o = Some (JStr (wf_html_url wf)) /\
    lookup "badge_url" o = Some (JStr (wf_badge_url wf)).

(** No record of the array is malformed. *)
Definition all_well_formed (shape : list (string * FieldType))
  (items : list json) : bool :=
  forallb (fun record => negb (malformed shape record)) items.

(** A string of white space only (the empty string included). *)
Fixpoint blank (s : string) : bool :=
  match s with
  | EmptyString => true
  | String c rest => JsString.is_white_space c && blank rest
  end.

(** The requests among the events of a computation. *)
Fixpoint sent (evs : list Event) : list HttpRequest :=
  match evs with
  | [] => []
  | HttpGet req :: rest => req :: sent rest
  | _ :: rest => sent rest
  end.

(** ** The root component of the web client

    The component holds one signal, [isRoastCardOpen], and the options of
    the mutation: [mutationFn] above and the two handlers below.  Running
    the mutation is the work of the query library: it awaits [mutationFn]
    and then calls [onSuccess] with its value or [onError] with the error
    it threw. *)

Record App : Type := {
  isRoastCardOpen : bool
}.

(** What the user and the console of the browser see. *)
Inductive UiEvent : Type :=
| Performed (ev : Event)
| ConsoleError (label : string) (error : JsError)
| Alert (message : string).

Definition analysisFailedMessage : string :=
  "Failed to analyze workflows. Please check the repository name and try again.".

(** The initial state: [signal(false)]. *)
Definition initialApp : App := {| isRoastCardOpen := false |}.

Definition onSuccess (data : string) (app : App) : list UiEvent * App :=
  ( [Performed (ConsoleLogArgs [LogText "Analysis successful:"; LogText data])],
    {| isRoastCardOpen := true |} ).

Definition onError (error : JsError) (app : App) : list UiEvent * App :=
  ( [ConsoleError "Analysis failed:" error; Alert analysisFailedMessage], app ).

Definition mutate (callable : Callable) (repoInput : string) (app : App)
  : list UiEvent * App :=
  let run := mutationFn callable repoInput in
  match result run with
  | Ok data =>
      (map Performed (events run) ++ fst (onSuccess data app),
       snd (onSuccess data app))
  | Throw error =>
      (map Performed (events run) ++ fst (onError error app),
       snd (onError error app))
  end.

Definition closeRoastCard (app : App) : App := {| isRoastCardOpen := false |}.

(** The messages shown to the user. *)
Fixpoint alerts (evs : list UiEvent) : list string :=
  match evs with
  | [] => []
  | Alert message :: rest => message :: alerts rest
  | _ :: rest => alerts rest
  end.

(** ** The ways a tool fails *)

(** What a tool throws, read off the answer of the upstream. *)
Inductive tool_failure (failure : HttpResponse -> JsError)
  (accepted : json -> bool) : outcome HttpResponse -> JsError -> Prop :=
| fetch_rejected (e : JsError) :
    tool_failure failure accepted (Throw e) e
| response_not_ok (r : HttpResponse) :
    resp_ok r = false ->
    tool_failure failure accepted (Ok r) (failure r)
| body_not_json (r : HttpResponse) :
    resp_ok r = true -> resp_body r = None ->
    tool_failure failure accepted (Ok r)
                 (SyntaxError "Unexpected token in JSON")
| payload_refused (r : HttpResponse) (payload : json) (issues : list ZodIssue) :
    resp_ok r = true -> resp_body r = Some payload ->
    accepted payload = false ->
    tool_failure failure accepted (Ok r) (ZodError issues).

(** * Properties *)

(** ** The effect monad *)

Lemma bind_ok {A B} (m : Eff A) (f : A -> Eff B) (a : A) :
  snd m = Ok a -> bind m f = (fst m ++ fst (f a), snd (f a)).
Proof. intros H. unfold bind. now rewrite H. Qed.

Lemma bind_throw {A B} (m : Eff A) (f : A -> Eff B) (e : JsError) :
  snd m = Throw e -> bind m f = (fst m, Throw e).
Proof. intros H. unfold bind. now rewrite H. Qed.

Lemma bind_result_ok {A B} (m : Eff A) (f : A -> Eff B) (b : B) :
  snd (bind m f) = Ok b -> exists a, snd m = Ok a /\ snd (f a) = Ok b.
Proof.
  unfold bind. destruct (snd m) as [a | e]; simpl; intros H.
  - now exists a.
  - discriminate.
Qed.

Section Traversal.

Context {A B : Type}.

(** A traversal fails as soon as one element fails. *)
Lemma mapM_throws (f : A -> Eff B) (xs : list A) (x : A) (e : JsError) :
  In x xs -> snd (f x) = Throw e ->
  exists y e', In y xs /\ snd (f y) = Throw e' /\ snd (mapM f xs) = Throw e'.
Proof.
  induction xs as [| h rest IH]; simpl; [tauto |].
  intros Hin Hx.
  destruct (snd (f h)) as [b | eh] eqn:Hh.
  - destruct Hin as [-> | Hin]; [congruence |].
    destruct (IH Hin Hx) as (y & e' & Hy & Hfy & Hm).
    exists y, e'. split; [now right |]. split; [assumption |].
    rewrite (bind_ok _ _ _ Hh). simpl.
    now rewrite (bind_throw _ _ _ Hm).
  - exists h, eh. split; [now left |]. split; [assumption |].
    now rewrite (bind_throw _ _ _ Hh).
Qed.

Lemma mapM_ok_length (f : A -> Eff B) (xs : list A) (ys : list B) :
  snd (mapM f xs) = Ok ys -> length ys = length xs.
Proof.
  revert ys. induction xs as [| h rest IH]; simpl; intros ys H.
  - now inversion H.
  - apply bind_result_ok in H. destruct H as (b & Hb & H).
    apply bind_result_ok in H. destruct H as (bs & Hbs & H).
    inversion H. simpl. f_equal. now apply IH.
Qed.

Lemma mapM_ok_each (f : A -> Eff B) (xs : list A) (ys : list B) :
  snd (mapM f xs) = Ok ys ->
  Forall (fun entry => snd (f (fst entry)) = Ok (snd entry)) (combine xs ys).
Proof.
  revert ys. induction xs as [| h rest IH]; simpl; intros ys H.
  - constructor.
  - apply bind_result_ok in H. destruct H as (b & Hb & H).
    apply bind_result_ok in H. destruct H as (bs & Hbs & H).
    inversion H. subst ys. constructor; [assumption | now apply IH].
Qed.

End Traversal.

(** ** Splitting and trimming *)

Section Strings.

Import JsString.

Lemma split_without (sep : ascii) (s : string) :
  contains sep s = false -> split sep s = [s].
Proof.
  induction s as [| c rest IH]; simpl; [reflexivity |].
  intros H. apply orb_false_iff in H. destruct H as [Hc Hrest].
  rewrite Hc, (IH Hrest). reflexivity.
Qed.

Lemma split_first (sep : ascii) (a rest : string) :
  contains sep a = false ->
  split sep (a ++ String sep rest)%string = a :: split sep rest.
Proof.
  induction a as [| c a IH]; simpl; intros H.
  - now rewrite Ascii.eqb_refl.
  - apply orb_false_iff in H. destruct H as [Hc Ha].
    rewrite Hc, (IH Ha). reflexivity.
Qed.

End Strings.

(** ** The client: identifiers *)

Section Client.

Import JsString.

Variable callable : Callable.

Lemma mutationFn_parts (s : string) (first second : string) (more : list string) :
  split slash s = first :: second :: more ->
  mutationFn callable s
  = if String.eqb (trim first) "" || String.eqb (trim second) ""
    then throw (Error invalidRepositoryMessage)
    else callWith callable (trim first) (trim second).
Proof.
  intros H. unfold mutationFn. fold slash. rewrite H. reflexivity.
Qed.

Lemma mutationFn_rejects (s : string) :
  malformed_identifier s ->
  mutationFn callable s = ([], Throw (Error invalidRepositoryMessage)).
Proof.
  intros [s' H | rest | o H | o rest H].
  - unfold mutationFn. fold slash. rewrite (split_without _ _ H).
    simpl. now rewrite orb_true_r.
  - unfold mutationFn. fold slash. simpl. reflexivity.
  - unfold mutationFn. fold slash. rewrite (split_first _ _ _ H).
    simpl. now rewrite orb_true_r.
  - unfold mutationFn.
    replace (o ++ "//" ++ rest)%string
      with (o ++ String slash (String slash rest))%string by reflexivity.
    fold slash. rewrite (split_first _ _ _ H). simpl. now rewrite orb_true_r.
Qed.

Lemma mutationFn_ignores_tail (a b rest : string) :
  contains slash a = false -> contains slash b = false ->
  mutationFn callable (a ++ "/" ++ b ++ "/" ++ rest)%string
  = mutationFn callable (a ++ "/" ++ b)%string.
Proof.
  intros Ha Hb.
  assert (H1 : split slash (a ++ "/" ++ b ++ "/" ++ rest)%string
               = a :: b :: split slash rest).
  { replace (a ++ "/" ++ b ++ "/" ++ rest)%string
      with (a ++ String slash (b ++ String slash rest))%string by reflexivity.
    now rewrite (split_first _ _ _ Ha), (split_first _ _ _ Hb). }
  assert (H2 : split slash (a ++ "/" ++ b)%string = [a; b]).
  { replace (a ++ "/" ++ b)%string with (a ++ String slash b)%string
      by reflexivity.
    now rewrite (split_first _ _ _ Ha), (split_without _ _ Hb). }
  now rewrite (mutationFn_parts _ _ _ _ H1), (mutationFn_parts _ _ _ _ H2).
Qed.

End Client.

(** C4. An identifier without a separator, or with an empty owner or
    repository component, makes the pipeline fail with the input error of
    the client, [Error invalidRepositoryMessage], and nothing has happened
    before: no call of the deployed function, no request to the upstream,
    no call of the engine.  The same holds over any callable. *)
Theorem invalid_identifier_fails_before_any_call
  (generateStream : GenerateStream) (w : World) (callable : Callable)
  (repoInput : string) :
  malformed_identifier repoInput ->
  events (pipeline generateStream w repoInput) = []
  /\ result (pipeline generateStream w repoInput)
     = Throw (Error invalidRepositoryMessage)
  /\ mutationFn callable repoInput = throw (Error invalidRepositoryMessage).
Proof.
  intros H. unfold pipeline, events, result.
  rewrite !(mutationFn_rejects _ _ H). now repeat split.
Qed.

Lemma invalid_identifier_fails_before_any_call_witness :
  malformed_identifier "not-a-repo"
  /\ events (pipeline (genkitGenerateStream (Sample.answering "ok") 0)
                      Sample.ciWorld "not-a-repo") = []
  /\ result (pipeline (genkitGenerateStream (Sample.answering "ok") 0)
                      Sample.ciWorld "not-a-repo")
     = Throw (Error invalidRepositoryMessage).
Proof.
  assert (H : malformed_identifier "not-a-repo")
    by (apply no_separator; reflexivity).
  split; [exact H |].
  destruct (invalid_identifier_fails_before_any_call
              (genkitGenerateStream (Sample.answering "ok") 0)
              Sample.ciWorld (Sample.echo "ok") _ H) as (He & Hr & _).
  split; [exact He | exact Hr].
Defined.

(** C4 (as stated) fails at the deployed flow: an owner that is empty
    passes the flow's input schema, the flow starts the generation, and
    when the engine asks for the listing a request for
    [/repos//widgets/actions/workflows] is sent; the flow ends with the
    error of the upstream, not with an input error. *)
Lemma deployed_flow_takes_empty_owner :
  result (parse flowInputSchema
            (JObj [("owner", JStr ""); ("repo", JStr "widgets")]))
  = Ok Sample.nameless
  /\ sent (events (workflowHealthFlow
                     (genkitGenerateStream Sample.namelessFollower 0)
                     Sample.ciWorld Sample.nameless sendChunk))
     = [ {| req_url := "https://api.github.com/repos//widgets/actions/workflows";
            req_headers := githubHeaders Sample.ciWorld |} ]
  /\ result (workflowHealthFlow
               (genkitGenerateStream Sample.namelessFollower 0)
               Sample.ciWorld Sample.nameless sendChunk)
     = Throw (Error "Failed to fetch workflows from GitHub: Not Found").
Proof. repeat split. Qed.

(** The flow's own input schema asks for two strings and nothing more:
    an empty owner passes it. *)
Remark flowInputSchema_accepts_empty_owner :
  parse flowInputSchema (JObj [("owner", JStr ""); ("repo", JStr "widgets")])
  = ret {| owner := ""; repo := "widgets" |}.
Proof. reflexivity. Qed.

(** C10. An identifier with two or more separators is split on every
    separator and only its first two segments, trimmed, are used: what
    follows the second separator never changes what the client does, and
    when both trimmed segments are non-empty the deployed function is
    called with them as owner and repository instead of the input being
    rejected. *)
Theorem extra_segments_are_discarded
  (callable : Callable) (a b rest : string) :
  JsString.contains slash a = false ->
  JsString.contains slash b = false ->
  JsString.split slash (a ++ "/" ++ b ++ "/" ++ rest)%string
  = a :: b :: JsString.split slash rest
  /\ mutationFn callable (a ++ "/" ++ b ++ "/" ++ rest)%string
     = mutationFn callable (a ++ "/" ++ b)%string
  /\ (JsString.trim a <> "" -> JsString.trim b <> "" ->
      mutationFn callable (a ++ "/" ++ b ++ "/" ++ rest)%string
      = callWith callable (JsString.trim a) (JsString.trim b)).
Proof.
  intros Ha Hb.
  assert (H1 : JsString.split slash (a ++ "/" ++ b ++ "/" ++ rest)%string
               = a :: b :: JsString.split slash rest).
  { replace (a ++ "/" ++ b ++ "/" ++ rest)%string
      with (a ++ String slash (b ++ String slash rest))%string by reflexivity.
    now rewrite (split_first _ _ _ Ha), (split_first _ _ _ Hb). }
  split; [exact H1 |]. split; [now apply mutationFn_ignores_tail |].
  intros Hta Htb. rewrite (mutationFn_parts _ _ _ _ _ H1).
  apply String.eqb_neq in Hta, Htb. now rewrite Hta, Htb.
Qed.

Lemma extra_segments_are_discarded_witness :
  mutationFn (Sample.echo "report") " a / b /c/d"
  = callWith (Sample.echo "report") "a" "b"
  /\ In (CallableCall "workflowHealthFunction" "a" "b")
        (events (mutationFn (Sample.echo "report") " a / b /c/d")).
Proof.
  split.
  - apply (extra_segments_are_discarded (Sample.echo "report") " a " " b " "c/d");
      [reflexivity | reflexivity | discriminate | discriminate].
  - left. reflexivity.
Defined.

(** C10 (as stated) fails: an input with two separators is not always
    issued.  When the first or the second segment is empty or blank the
    client rejects it and nothing is called, whatever follows. *)
Lemma two_separators_can_be_rejected :
  mutationFn (Sample.echo "report") "a//c"
  = ([], Throw (Error invalidRepositoryMessage))
  /\ mutationFn (Sample.echo "report") "/b/c"
     = ([], Throw (Error invalidRepositoryMessage))
  /\ mutationFn (Sample.echo "report") "a/ /c"
     = ([], Throw (Error invalidRepositoryMessage)).
Proof. repeat split. Qed.

(** ** Validation *)

Lemma is_valid_vmap {A B} (f : A -> B) (v : Validation A) :
  is_valid (f <$> v) = is_valid v.
Proof. now destruct v. Qed.

Lemma is_valid_vap {A B} (vf : Validation (A -> B)) (va : Validation A) :
  is_valid (vf <*> va) = is_valid vf && is_valid va.
Proof. now destruct vf, va. Qed.

Lemma vmap_valid {A B} (f : A -> B) (v : Validation A) (b : B) :
  f <$> v = Valid b -> exists a, v = Valid a /\ b = f a.
Proof.
  destruct v as [a | issues]; simpl; intros H; [| discriminate].
  exists a. split; [reflexivity | congruence].
Qed.

Lemma vap_valid {A B} (vf : Validation (A -> B)) (va : Validation A) (b : B) :
  vf <*> va = Valid b -> exists f a, vf = Valid f /\ va = Valid a /\ b = f a.
Proof.
  destruct vf as [f | i], va as [a | ia]; simpl; intros H; try discriminate.
  exists f, a. repeat split. congruence.
Qed.

Lemma not_valid_invalid {A} (v : Validation A) :
  is_valid v = false -> exists issues, v = Invalid issues.
Proof. destruct v as [a | issues]; [discriminate | now exists issues]. Qed.

Lemma z_number_conforms (path : list PathItem) (v : option json) :
  is_valid (z_number path v) = conforms TNumber v.
Proof. now destruct v as [[]|]. Qed.

Lemma z_string_conforms (path : list PathItem) (v : option json) :
  is_valid (z_string path v) = conforms TString v.
Proof. now destruct v as [[]|]. Qed.

Lemma z_nullable_string_conforms (path : list PathItem) (v : option json) :
  is_valid (z_nullable z_string path v) = conforms TNullableString v.
Proof. now destruct v as [[]|]. Qed.

Lemma z_number_valid (path : list PathItem) (v : option json) (n : Z) :
  z_number path v = Valid n -> v = Some (JNum n).
Proof. destruct v as [[]|]; simpl; intros H; try discriminate. congruence. Qed.

Lemma z_string_valid (path : list PathItem) (v : option json) (s : string) :
  z_string path v = Valid s -> v = Some (JStr s).
Proof. destruct v as [[]|]; simpl; intros H; try discriminate. congruence. Qed.

Lemma z_nullable_string_valid (path : list PathItem) (v : option json)
  (s : option string) :
  z_nullable z_string path v = Valid s -> v = Some (nullable_json s).
Proof.
  destruct v as [[]|]; simpl; intros H; try discriminate;
    inversion H; reflexivity.
Qed.

(** The schemas agree with the declared shapes: a record is rejected
    exactly when it is malformed, wherever it is found. *)
Lemma workflowRunSchema_malformed (path : list PathItem) (record : json) :
  is_valid (workflowRunSchema path (Some record))
  = negb (malformed workflowRunShape record).
Proof.
  destruct record; try reflexivity.
  unfold workflowRunSchema, field, malformed, workflowRunShape.
  rewrite !is_valid_vap, is_valid_vmap.
  rewrite !z_number_conforms, !z_string_conforms, !z_nullable_string_conforms.
  cbn [existsb fst snd].
  rewrite !negb_orb, !negb_involutive, <- !andb_assoc.
  cbn [negb]. now rewrite andb_true_r.
Qed.

Lemma workflowSchema_malformed (path : list PathItem) (record : json) :
  is_valid (workflowSchema path (Some record))
  = negb (malformed workflowShape record).
Proof.
  destruct record; try reflexivity.
  unfold workflowSchema, field, malformed, workflowShape.
  rewrite !is_valid_vap, is_valid_vmap.
  rewrite !z_number_conforms, !z_string_conforms.
  cbn [existsb fst snd].
  rewrite !negb_orb, !negb_involutive, <- !andb_assoc.
  cbn [negb]. now rewrite andb_true_r.
Qed.

Section Arrays.

Context {A : Type} (inner : Schema A).

(** One rejected element makes [z.array] reject the array. *)
Lemma validate_items_rejects (bad : json) (items : list json) :
  (forall path, is_valid (inner path (Some bad)) = false) ->
  In bad items ->
  forall path i, is_valid (validate_items inner path i items) = false.
Proof.
  intros Hbad. induction items as [| item rest IH]; simpl; [tauto |].
  intros Hin path i. rewrite is_valid_vap, is_valid_vmap.
  destruct Hin as [-> | Hin].
  - now rewrite Hbad.
  - rewrite (IH Hin). apply andb_false_r.
Qed.

(** An accepted array yields its elements in their order. *)
Lemma validate_items_in_order (P : json -> A -> Prop) :
  (forall path item a, inner path (Some item) = Valid a -> P item a) ->
  forall items path i values,
    validate_items inner path i items = Valid values ->
    Forall2 P items values.
Proof.
  intros HP. induction items as [| item rest IH]; simpl; intros path i values H.
  - inversion H. constructor.
  - apply vap_valid in H. destruct H as (f & vs & Hf & Hvs & ->).
    apply vmap_valid in Hf. destruct Hf as (a & Ha & ->).
    constructor; [now apply (HP _ _ _ Ha) | now apply (IH _ _ _ Hvs)].
Qed.

Lemma z_array_rejects (bad : json) (items : list json) (path : list PathItem) :
  (forall p, is_valid (inner p (Some bad)) = false) ->
  In bad items ->
  is_valid (z_array inner path (Some (JArr items))) = false.
Proof. intros Hbad Hin. simpl. now apply validate_items_rejects with bad. Qed.

End Arrays.

Lemma workflowRunSchema_decodes (path : list PathItem) (record : json)
  (run : WorkflowRun) :
  workflowRunSchema path (Some record) = Valid run -> decoded_from record run.
Proof.
  destruct record; simpl; try discriminate. unfold field. intros H.
  repeat (apply vap_valid in H;
          let f := fresh "f" in let a := fresh "a" in
          let Hf := fresh "Hf" in let Ha := fresh "Ha" in
          destruct H as (f & a & H & Ha & ->)).
  apply vmap_valid in H. destruct H as (a' & Ha' & ->).
  exists props. cbn.
  repeat match goal with
         | H : z_number _ _ = Valid _ |- _ => apply z_number_valid in H
         | H : z_string _ _ = Valid _ |- _ => apply z_string_valid in H
         | H : z_nullable z_string _ _ = Valid _ |- _ =>
             apply z_nullable_string_valid in H
         end.
  repeat split; assumption.
Qed.

(** The copies the tools make of the parsed records change nothing. *)
Lemma copy_runs (runs : list WorkflowRun) :
  map (fun run =>
         {| run_id := run_id run;
            run_name := run_name run;
            run_status := run_status run;
            run_conclusion := run_conclusion run;
            run_workflow_id := run_workflow_id run;
            run_created_at := run_created_at run;
            run_updated_at := run_updated_at run;
            run_run_started_at := run_run_started_at run;
            run_html_url := run_html_url run |}) runs = runs.
Proof.
  induction runs as [| [] rest IH]; simpl; [reflexivity | now rewrite IH].
Qed.



(** ** The retrieval tools *)

Section Tools.

Variable w : World.

Lemma fetchWorkflows_result (input : RepoInput) :
  result (fetchWorkflows w input)
  = match github w (workflowsRequest w input) with
    | Throw e => Throw e
    | Ok r =>
        if resp_ok r then
          match resp_body r with
          | None => Throw (SyntaxError "Unexpected token in JSON")
          | Some payload =>
              match workflowsResponseSchema [] (Some payload) with
              | Valid parsed => Ok (wr_workflows parsed)
              | Invalid issues => Throw (ZodError issues)
              end
          end
        else Throw (workflowsFailure r)
    end.
Proof.
  unfold result, fetchWorkflows, fetch, console_log.
  fold (workflowsRequest w input).
  destruct (github w (workflowsRequest w input)) as [r | e] eqn:Hr;
    unfold bind at 1; cbn [snd fst emit];
    unfold bind at 1; cbn [snd fst emit];
    unfold bind at 1; cbn [snd fst emit]; rewrite ?Hr; [| reflexivity].
  destruct (resp_ok r); cbn [negb]; [| reflexivity].
  unfold response_json. destruct (resp_body r) as [payload |];
    unfold bind at 1; cbn [snd fst ret throw]; [| reflexivity].
  unfold parse.
  destruct (workflowsResponseSchema [] (Some payload)) as [parsed | issues];
    unfold bind at 1; cbn [snd fst ret throw]; [| reflexivity].
  f_equal. destruct parsed as [total workflows]. cbn [wr_workflows].
  induction workflows as [| [] rest IH]; simpl; [reflexivity | now rewrite IH].
Qed.

Lemma fetchWorkflowRuns_result (input : RunsInput) :
  result (fetchWorkflowRuns w input)
  = match github w (workflowRunsRequest w input) with
    | Throw e => Throw e
    | Ok r =>
        if resp_ok r then
          match resp_body r with
          | None => Throw (SyntaxError "Unexpected token in JSON")
          | Some payload =>
              match workflowRunsResponseSchema [] (Some payload) with
              | Valid parsed => Ok (rr_workflow_runs parsed)
              | Invalid issues => Throw (ZodError issues)
              end
          end
        else Throw (workflowRunsFailure r)
    end.
Proof.
  unfold result, fetchWorkflowRuns, fetch, console_log.
  fold (workflowRunsRequest w input).
  destruct (github w (workflowRunsRequest w input)) as [r | e] eqn:Hr;
    unfold bind at 1; cbn [snd fst emit];
    unfold bind at 1; cbn [snd fst emit];
    unfold bind at 1; cbn [snd fst emit]; rewrite ?Hr; [| reflexivity].
  destruct (resp_ok r); cbn [negb]; [| reflexivity].
  unfold response_json. destruct (resp_body r) as [payload |];
    unfold bind at 1; cbn [snd fst ret throw]; [| reflexivity].
  unfold parse.
  destruct (workflowRunsResponseSchema [] (Some payload)) as [parsed | issues];
    unfold bind at 1; cbn [snd fst ret throw]; [| reflexivity].
  f_equal. apply copy_runs.
Qed.

End Tools.

(** C5 (as the code has it). On a response that is not ok, that is with
    a status outside 200 to 299, [fetchWorkflows] and [fetchWorkflowRuns]
    fail with an [Error] whose message is a fixed text followed by the
    status text of the response; after the one request nothing else
    happens.  The numeric status is not part of the error. *)
Theorem tools_fail_with_status_text (w : World) :
  (forall input r,
      github w (workflowsRequest w input) = Ok r ->
      resp_ok r = false ->
      result (fetchWorkflows w input)
      = Throw (Error (JsString.template
                        ["Failed to fetch workflows from GitHub: ";
                         resp_statusText r])))
  /\ (forall input r,
      github w (workflowRunsRequest w input) = Ok r ->
      resp_ok r = false ->
      result (fetchWorkflowRuns w input)
      = Throw (Error (JsString.template
                        ["Failed to fetch workflow runs from GitHub: ";
                         resp_statusText r]))).
Proof.
  split; intros input r Hr Hok.
  - rewrite fetchWorkflows_result, Hr, Hok. reflexivity.
  - rewrite fetchWorkflowRuns_result, Hr, Hok. reflexivity.
Qed.

Lemma tools_fail_with_status_text_witness :
  result (fetchWorkflows (Sample.always (Sample.respondError 404 "Not Found"))
                         Sample.acme)
  = Throw (Error "Failed to fetch workflows from GitHub: Not Found")
  /\ result (Sample.runsOf (Sample.always (Sample.respondError 404 "Not Found")) 1)
     = Throw (Error "Failed to fetch workflow runs from GitHub: Not Found").
Proof.
  destruct (tools_fail_with_status_text
              (Sample.always (Sample.respondError 404 "Not Found")))
    as [Hw Hr].
  split.
  - apply (Hw Sample.acme (Sample.respondError 404 "Not Found"));
      reflexivity.
  - apply (Hr {| runs_owner := "acme"; runs_repo := "widgets"; workflowId := 1 |}
              (Sample.respondError 404 "Not Found")); reflexivity.
Defined.

(** C5 (as stated) fails: no reading of the thrown error recovers the
    HTTP status.  Two responses with statuses 500 and 503 and the same
    (empty) status text make each tool throw the very same error. *)
Lemma upstream_error_does_not_carry_status :
  ~ exists status_of : JsError -> Z,
      forall r e,
        resp_ok r = false ->
        result (fetchWorkflows (Sample.always r) Sample.acme) = Throw e
        \/ result (Sample.runsOf (Sample.always r) 1) = Throw e ->
        status_of e = resp_status r.
Proof.
  intros (status_of & H).
  pose (r500 := {| resp_status := 500; resp_statusText := "";
                   resp_body := None |}).
  pose (r503 := {| resp_status := 503; resp_statusText := "";
                   resp_body := None |}).
  assert (H500 : status_of (Error "Failed to fetch workflows from GitHub: ") = 500)
    by (apply (H r500); [reflexivity | left; reflexivity]).
  assert (H503 : status_of (Error "Failed to fetch workflows from GitHub: ") = 503)
    by (apply (H r503); [reflexivity | left; reflexivity]).
  rewrite H500 in H503. discriminate.
Qed.

(** C6. When the decoded payload of an ok response lists one malformed
    record (a key of the schema is missing, as [id] in a run, or holds
    another primitive type, or holds [null] where the schema does not
    allow it), the whole fetch throws a [ZodError]: no list of the
    remaining records is returned.  This holds for both tools. *)
Theorem malformed_record_fails_whole_fetch (w : World) (r : HttpResponse)
  (payload record : json) :
  resp_ok r = true ->
  resp_body r = Some payload ->
  (forall input,
      github w (workflowRunsRequest w input) = Ok r ->
      lists_record "workflow_runs" payload record ->
      malformed workflowRunShape record = true ->
      exists issues,
        result (fetchWorkflowRuns w input) = Throw (ZodError issues))
  /\ (forall input,
      github w (workflowsRequest w input) = Ok r ->
      lists_record "workflows" payload record ->
      malformed workflowShape record = true ->
      exists issues,
        result (fetchWorkflows w input) = Throw (ZodError issues)).
Proof.
  intros Hok Hbody.
  split; intros input Hr (o & items & -> & Hlook & Hin) Hbad.
  - rewrite fetchWorkflowRuns_result, Hr, Hok, Hbody.
    assert (Hinv : is_valid (workflowRunsResponseSchema [] (Some (JObj o))) = false).
    { unfold workflowRunsResponseSchema, field.
      rewrite is_valid_vap, Hlook.
      rewrite (z_array_rejects workflowRunSchema record items); [apply andb_false_r | | exact Hin].
      intros p. now rewrite workflowRunSchema_malformed, Hbad. }
    apply not_valid_invalid in Hinv. destruct Hinv as (issues & ->).
    now exists issues.
  - rewrite fetchWorkflows_result, Hr, Hok, Hbody.
    assert (Hinv : is_valid (workflowsResponseSchema [] (Some (JObj o))) = false).
    { unfold workflowsResponseSchema, field.
      rewrite is_valid_vap, Hlook.
      rewrite (z_array_rejects workflowSchema record items); [apply andb_false_r | | exact Hin].
      intros p. now rewrite workflowSchema_malformed, Hbad. }
    apply not_valid_invalid in Hinv. destruct Hinv as (issues & ->).
    now exists issues.
Qed.

Lemma malformed_record_fails_whole_fetch_witness :
  malformed workflowRunShape Sample.runWithoutId = true
  /\ malformed workflowShape Sample.workflowWithNullName = true
  /\ (exists issues,
        result (Sample.runsOf Sample.brokenRunsWorld 1) = Throw (ZodError issues))
  /\ (exists issues,
        result (fetchWorkflows Sample.brokenWorkflowsWorld Sample.acme)
        = Throw (ZodError issues)).
Proof.
  split; [reflexivity |]. split; [reflexivity |]. split.
  - refine (proj1 (malformed_record_fails_whole_fetch
                     Sample.brokenRunsWorld
                     (Sample.respond200
                        (Sample.runsPayload
                           [ Sample.runJson 1 3 (JStr "success");
                             Sample.runWithoutId;
                             Sample.runJson 1 1 (JStr "success") ]))
                     _ Sample.runWithoutId eq_refl eq_refl)
                  {| runs_owner := "acme"; runs_repo := "widgets";
                     workflowId := 1 |} eq_refl _ eq_refl).
    eexists _, _. split; [reflexivity |]. split; [reflexivity |].
    right. left. reflexivity.
  - refine (proj2 (malformed_record_fails_whole_fetch
                     Sample.brokenWorkflowsWorld
                     (Sample.respond200
                        (Sample.workflowsPayload
                           [ Sample.workflowJson 1 "A" ".github/workflows/a.yml";
                             Sample.workflowWithNullName ]))
                     _ Sample.workflowWithNullName eq_refl eq_refl)
                  Sample.acme eq_refl _ eq_refl).
    eexists _, _. split; [reflexivity |]. split; [reflexivity |].
    right. left. reflexivity.
Defined.

(** C9 (as the code has it). The runs [fetchWorkflowRuns] returns are the
    records of the payload's [workflow_runs] array, one for one and in the
    order of the array: the upstream order is preserved and never
    re-established. *)
Theorem runs_keep_upstream_order (w : World) (input : RunsInput)
  (runs : list WorkflowRun) :
  result (fetchWorkflowRuns w input) = Ok runs ->
  exists r o items,
    github w (workflowRunsRequest w input) = Ok r
    /\ resp_body r = Some (JObj o)
    /\ lookup "workflow_runs" o = Some (JArr items)
    /\ Forall2 decoded_from items runs.
Proof.
  rewrite fetchWorkflowRuns_result.
  destruct (github w (workflowRunsRequest w input)) as [r | e] eqn:Hr;
    [| discriminate].
  destruct (resp_ok r); [| discriminate].
  destruct (resp_body r) as [payload |] eqn:Hbody; [| discriminate].
  destruct (workflowRunsResponseSchema [] (Some payload)) as [parsed | issues] eqn:Hp;
    [| discriminate].
  intros H. inversion H; subst runs; clear H.
  destruct payload as [| | | | | o]; try discriminate.
  unfold workflowRunsResponseSchema, field in Hp.
  apply vap_valid in Hp. destruct Hp as (f & parsed_runs & Hf & Hruns & ->).
  apply vmap_valid in Hf. destruct Hf as (total & _ & ->).
  cbn [rr_workflow_runs].
  destruct (lookup "workflow_runs" o) as [[| | | | items |] |] eqn:Hlook;
    try discriminate.
  exists r, o, items. repeat split; try assumption.
  simpl in Hruns.
  apply (validate_items_in_order workflowRunSchema decoded_from
           workflowRunSchema_decodes _ _ _ _ Hruns).
Qed.

Lemma runs_keep_upstream_order_witness :
  exists runs,
    result (Sample.runsOf Sample.shuffledWorld 1) = Ok runs
    /\ map run_id runs = [1002; 1001; 1003]
    /\ exists r o items,
        github Sample.shuffledWorld
          (workflowRunsRequest Sample.shuffledWorld
             {| runs_owner := "acme"; runs_repo := "widgets"; workflowId := 1 |})
        = Ok r
        /\ resp_body r = Some (JObj o)
        /\ lookup "workflow_runs" o = Some (JArr items)
        /\ Forall2 decoded_from items runs.
Proof.
  eexists. split; [reflexivity |]. split; [reflexivity |].
  apply (runs_keep_upstream_order Sample.shuffledWorld
           {| runs_owner := "acme"; runs_repo := "widgets"; workflowId := 1 |}).
  reflexivity.
Defined.

(** C9 (as stated) fails: when the upstream lists the runs of 2, 1 and 3
    January in that order, [fetchWorkflowRuns] returns them in that order,
    which is neither oldest first nor newest first. *)
Lemma runs_are_not_reordered :
  exists runs,
    result (Sample.runsOf Sample.shuffledWorld 1) = Ok runs
    /\ map run_created_at runs
       = ["2024-01-02T10:30:00Z"; "2024-01-01T10:30:00Z"; "2024-01-03T10:30:00Z"]
    /\ ordered_by_creation runs = false.
Proof.
  eexists. split; [reflexivity |]. split; reflexivity.
Qed.

(** ** The flow *)

Lemma forEach_sendChunk (chunks : list string) :
  forEach sendChunk chunks = (map StreamChunk chunks, Ok tt).
Proof.
  induction chunks as [| c rest IH]; [reflexivity |].
  simpl. rewrite IH. reflexivity.
Qed.

Section Flow.

Variable generateStream : GenerateStream.
Variable w : World.
Variable input : RepoInput.
Variable streamCallback : StreamCallback.

Lemma workflowHealthFlow_unfold :
  workflowHealthFlow generateStream w input streamCallback
  = (text <- generateStream (flowOptions w input) streamCallback ;;
     console_log_args [LogObject [("text", text)]] ;; ret text).
Proof. reflexivity. Qed.

(** The flow returns the text of the generation, or fails as it does. *)
Lemma workflowHealthFlow_result :
  result (workflowHealthFlow generateStream w input streamCallback)
  = result (generateStream (flowOptions w input) streamCallback).
Proof.
  rewrite workflowHealthFlow_unfold. unfold result, bind.
  destruct (snd (generateStream (flowOptions w input) streamCallback));
    reflexivity.
Qed.

Lemma workflowHealthFlow_events :
  events (workflowHealthFlow generateStream w input streamCallback)
  = events (generateStream (flowOptions w input) streamCallback)
    ++ match result (generateStream (flowOptions w input) streamCallback) with
       | Ok text => [ConsoleLogArgs [LogObject [("text", text)]]]
       | Throw _ => []
       end.
Proof.
  rewrite workflowHealthFlow_unfold. unfold events, result, bind.
  destruct (snd (generateStream (flowOptions w input) streamCallback));
    simpl; [reflexivity | now rewrite app_nil_r].
Qed.

End Flow.

(** C7 (as the code has it). When the generation call fails, the flow
    fails with the same error: the chunks already produced have gone to
    the stream callback, nothing is logged, and no report is returned. *)
Theorem generation_failure_fails_flow (generateStream : GenerateStream)
  (w : World) (input : RepoInput) (streamCallback : StreamCallback)
  (e : JsError) :
  result (generateStream (flowOptions w input) streamCallback) = Throw e ->
  workflowHealthFlow generateStream w input streamCallback
  = (events (generateStream (flowOptions w input) streamCallback), Throw e).
Proof.
  intros H.
  rewrite (surjective_pairing
             (workflowHealthFlow generateStream w input streamCallback)).
  f_equal.
  - change (events (workflowHealthFlow generateStream w input streamCallback)
            = events (generateStream (flowOptions w input) streamCallback)).
    rewrite workflowHealthFlow_events, H. apply app_nil_r.
  - change (result (workflowHealthFlow generateStream w input streamCallback)
            = Throw e).
    now rewrite workflowHealthFlow_result.
Qed.

Lemma generation_failure_fails_flow_witness :
  result (workflowHealthFlow (genkitGenerateStream Sample.speechless 0)
            Sample.ciWorld Sample.acme sendChunk)
  = Throw Sample.unavailable.
Proof.
  rewrite (generation_failure_fails_flow
             (genkitGenerateStream Sample.speechless 0)
             Sample.ciWorld Sample.acme sendChunk Sample.unavailable);
    reflexivity.
Defined.

(** C7 (as stated) fails: the engine gathers the workflow and its runs
    and then cannot generate; the flow throws that error and returns no
    report, not even one with an empty narrative. *)
Lemma failed_narrative_aborts_request :
  (exists runs,
      result (Sample.runsOf Sample.ciWorld 1) = Ok runs /\ length runs = 20%nat)
  /\ result (workflowHealthFlow (genkitGenerateStream Sample.speechless 0)
               Sample.ciWorld Sample.acme sendChunk)
     = Throw (GenkitError "UNAVAILABLE"
                "The model is overloaded. Please try again later.")
  /\ forall text,
      result (pipeline (genkitGenerateStream Sample.speechless 0)
                Sample.ciWorld "acme/widgets") <> Ok text.
Proof.
  split; [eexists; split; reflexivity |]. split; [reflexivity |].
  intros text. vm_compute. discriminate.
Qed.

(** ** The tool loop *)

Section Loop.

Variable engine : Engine.
Variable sample : nat.
Variable onChunk : StreamCallback.

Lemma generateLoop_unfold (options : GenerateOptions) (turns : nat)
  (history : History) :
  generateLoop engine sample options onChunk turns history
  = match respond engine sample (opt_prompt options)
                  (opt_temperature options) history with
    | FinalAnswer chunks text => forEach onChunk chunks ;; ret text
    | GenerationFailure chunks e => forEach onChunk chunks ;; throw e
    | ToolRequests chunks requests =>
        forEach onChunk chunks ;;
        match turns with
        | O => throw (GenkitError "ABORTED"
                        (JsString.template
                           ["Exceeded maximum tool call iterations (";
                            JsString.of_number (Z.of_nat (maxTurns engine)); ")"]))
        | S turns' =>
            responses <- mapM (runTool (opt_tools options)) requests ;;
            generateLoop engine sample options onChunk turns'
              (history ++ combine requests responses)
        end
    end.
Proof. destruct turns; reflexivity. Qed.

(** A text the loop returns is a final answer of the engine over a
    history of tool results the tools really gave. *)
Lemma generateLoop_answer (options : GenerateOptions) (turns : nat) :
  forall history text,
    genuine (opt_tools options) history ->
    result (generateLoop engine sample options onChunk turns history) = Ok text ->
    exists history' chunks,
      genuine (opt_tools options) history'
      /\ respond engine sample (opt_prompt options) (opt_temperature options)
                 history' = FinalAnswer chunks text.
Proof.
  unfold result.
  induction turns as [| turns IH]; intros history text Hgen H; simpl in H;
    destruct (respond engine sample (opt_prompt options)
                      (opt_temperature options) history)
      as [chunks requests | chunks answer | chunks e] eqn:Hturn.
  - apply bind_result_ok in H. destruct H as (_ & _ & H). discriminate.
  - apply bind_result_ok in H. destruct H as (_ & _ & H).
    inversion H; subst. now exists history, chunks.
  - apply bind_result_ok in H. destruct H as (_ & _ & H). discriminate.
  - apply bind_result_ok in H. destruct H as (_ & _ & H).
    apply bind_result_ok in H. destruct H as (responses & Hresp & H).
    apply (IH _ _) in H; [exact H |].
    apply Forall_app. split; [exact Hgen |].
    now apply mapM_ok_each.
  - apply bind_result_ok in H. destruct H as (_ & _ & H).
    inversion H; subst. now exists history, chunks.
  - apply bind_result_ok in H. destruct H as (_ & _ & H). discriminate.
Qed.

End Loop.

(** C1 (as the code has it). Every text the flow returns is, unchanged,
    a final answer of the engine to the flow's prompt over tool results
    that the two tools really returned: the assessments in it, and their
    counts of total, successful and failed runs, are the engine's; the
    flow computes and checks none of them. *)
Theorem report_is_engine_answer (engine : Engine) (sample : nat) (w : World)
  (input : RepoInput) (streamCallback : StreamCallback) (text : string) :
  result (workflowHealthFlow (genkitGenerateStream engine sample) w input
            streamCallback) = Ok text ->
  exists history chunks,
    genuine (toolsOf w) history
    /\ respond engine sample (healthPrompt (owner input) (repo input)) (3 # 10)
               history = FinalAnswer chunks text.
Proof.
  rewrite workflowHealthFlow_result. unfold genkitGenerateStream. intros H.
  apply (generateLoop_answer engine sample streamCallback
           (flowOptions w input) (maxTurns engine) [] text);
    [constructor | exact H].
Qed.

Lemma report_is_engine_answer_witness :
  exists history chunks,
    genuine (toolsOf Sample.ciWorld) history
    /\ respond (Sample.answering (Report.render Sample.optimistic)) 0
               (healthPrompt "acme" "widgets") (3 # 10) history
       = FinalAnswer chunks (Report.render Sample.optimistic).
Proof.
  apply (report_is_engine_answer
           (Sample.answering (Report.render Sample.optimistic)) 0
           Sample.ciWorld Sample.acme sendChunk).
  reflexivity.
Defined.

(** C1 (as stated) fails: the upstream has twenty runs of CI, the engine
    follows the instructions and answers 17 successful and 4 failed runs
    out of 20; the flow returns that report as it is. *)
Lemma returned_counts_can_exceed_total :
  (exists runs,
      result (Sample.runsOf Sample.ciWorld 1) = Ok runs /\ length runs = 20%nat)
  /\ result (workflowHealthFlow
               (genkitGenerateStream
                  (Sample.answering (Report.render Sample.miscounted)) 0)
               Sample.ciWorld Sample.acme sendChunk)
     = Ok (Report.render Sample.miscounted)
  /\ ~ Forall counts_consistent Sample.miscounted.
Proof.
  split; [eexists; split; reflexivity |]. split; [reflexivity |].
  intros H. inversion H as [| a rest Ha _]; subst.
  unfold counts_consistent in Ha. simpl in Ha. lia.
Qed.


(** ** An engine that follows the instructions *)

Lemma result_bind {A B} (m : Eff A) (f : A -> Eff B) :
  result (bind m f)
  = match result m with
    | Ok a => result (f a)
    | Throw e => Throw e
    end.
Proof. unfold result, bind. now destruct (snd m). Qed.

Lemma result_mapM_cons {A B} (f : A -> Eff B) (x : A) (xs : list A) :
  result (mapM f (x :: xs))
  = match result (f x) with
    | Throw e => Throw e
    | Ok y => match result (mapM f xs) with
              | Ok ys => Ok (y :: ys)
              | Throw e => Throw e
              end
    end.
Proof.
  simpl. rewrite result_bind. destruct (result (f x)); [| reflexivity].
  rewrite result_bind. now destruct (result (mapM f xs)).
Qed.

Section Follower.

Variable w : World.
Variable input : RepoInput.

Lemma result_runTool_workflows :
  result (runTool (toolsOf w) (CallFetchWorkflows input))
  = match result (fetchWorkflows w input) with
    | Ok workflows => Ok (WorkflowsOutput workflows)
    | Throw e => Throw e
    end.
Proof.
  cbn [runTool toolsOf tool_fetchWorkflows]. rewrite result_bind.
  now destruct (result (fetchWorkflows w input)).
Qed.

Lemma result_runTool_runs (wf : Workflow) :
  result (runTool (toolsOf w) (runsRequest input wf))
  = match result (fetchWorkflowRuns w (runsInputOf input wf)) with
    | Ok runs => Ok (WorkflowRunsOutput runs)
    | Throw e => Throw e
    end.
Proof.
  cbn [runTool runsRequest toolsOf tool_fetchWorkflowRuns]. rewrite result_bind.
  now destruct (result (fetchWorkflowRuns w (runsInputOf input wf))).
Qed.

Lemma result_run_requests (workflows : list Workflow) :
  result (mapM (runTool (toolsOf w)) (map (runsRequest input) workflows))
  = match result (fetchAllRuns w input workflows) with
    | Ok runs => Ok (map WorkflowRunsOutput runs)
    | Throw e => Throw e
    end.
Proof.
  unfold fetchAllRuns.
  induction workflows as [| wf rest IH]; [reflexivity |].
  cbn [map]. rewrite !result_mapM_cons, result_runTool_runs, IH.
  destruct (result (fetchWorkflowRuns w (runsInputOf input wf))); [| reflexivity].
  now destruct (result (mapM (fun wf0 => fetchWorkflowRuns w (runsInputOf input wf0)) rest)).
Qed.

Variable conclude : nat -> History -> ModelTurn.
Variable sample : nat.

Lemma follower_turn (workflows : list Workflow) (runs : list (list WorkflowRun)) :
  length runs = length workflows ->
  respond (promptFollower input conclude) sample
          (opt_prompt (flowOptions w input))
          (opt_temperature (flowOptions w input))
          (gathered input workflows runs)
  = conclude sample (gathered input workflows runs).
Proof.
  destruct workflows as [| wf wfs], runs as [| r rs]; simpl; intros H;
    try discriminate; reflexivity.
Qed.

Lemma follower_concludes (turns : nat) (workflows : list Workflow)
  (runs : list (list WorkflowRun)) (o : outcome string) :
  length runs = length workflows ->
  concluded (conclude sample (gathered input workflows runs)) = Some o ->
  result (generateLoop (promptFollower input conclude) sample
            (flowOptions w input) sendChunk turns
            (gathered input workflows runs)) = o.
Proof.
  intros Hlen Hc.
  rewrite generateLoop_unfold, (follower_turn _ _ Hlen).
  destruct (conclude sample (gathered input workflows runs));
    simpl in Hc; inversion Hc; subst;
    rewrite result_bind, forEach_sendChunk; reflexivity.
Qed.

(** The first two turns: the listing, then the runs of every workflow. *)
Lemma follower_result :
  result (workflowHealthFlow
            (genkitGenerateStream (promptFollower input conclude) sample)
            w input sendChunk)
  = match result (fetchWorkflows w input) with
    | Throw e => Throw e
    | Ok [] =>
        result (generateLoop (promptFollower input conclude) sample
                  (flowOptions w input) sendChunk 4
                  (gathered input [] []))
    | Ok (wf :: wfs) =>
        match result (fetchAllRuns w input (wf :: wfs)) with
        | Throw e => Throw e
        | Ok runs =>
            result (generateLoop (promptFollower input conclude) sample
                      (flowOptions w input) sendChunk 3
                      (gathered input (wf :: wfs) runs))
        end
    end.
Proof.
  rewrite workflowHealthFlow_result. unfold genkitGenerateStream.
  cbn [maxTurns promptFollower].
  change (generateLoop (promptFollower input conclude) sample
            (flowOptions w input) sendChunk 5 [])
    with (forEach sendChunk [] ;;
          responses <- mapM (runTool (toolsOf w)) [CallFetchWorkflows input] ;;
          generateLoop (promptFollower input conclude) sample
            (flowOptions w input) sendChunk 4
            ([] ++ combine [CallFetchWorkflows input] responses)).
  rewrite result_bind. cbn [forEach ret result snd].
  rewrite result_bind, result_mapM_cons, result_runTool_workflows.
  destruct (result (fetchWorkflows w input)) as [workflows | e]; [| reflexivity].
  cbn [mapM ret result snd combine app].
  destruct workflows as [| wf wfs]; [reflexivity |].
  change (generateLoop (promptFollower input conclude) sample
            (flowOptions w input) sendChunk 4
            [(CallFetchWorkflows input, WorkflowsOutput (wf :: wfs))])
    with (forEach sendChunk [] ;;
          responses <- mapM (runTool (toolsOf w))
                            (map (runsRequest input) (wf :: wfs)) ;;
          generateLoop (promptFollower input conclude) sample
            (flowOptions w input) sendChunk 3
            ([(CallFetchWorkflows input, WorkflowsOutput (wf :: wfs))]
               ++ combine (map (runsRequest input) (wf :: wfs)) responses)).
  rewrite result_bind. cbn [forEach ret result snd].
  rewrite result_bind, result_run_requests.
  destruct (result (fetchAllRuns w input (wf :: wfs))); reflexivity.
Qed.

End Follower.

(** ** What the report depends on *)






(** C2 (as the code has it). For every workflow, one whose three most
    recent completed runs all failed included, the assessment and its
    bucket are those of the engine's concluding answer over the listing
    and the run histories the tools fetched: the flow returns that answer
    as it is and caps nothing. *)
Theorem assessment_is_engine_conclusion (w : World) (input : RepoInput)
  (conclude : nat -> History -> ModelTurn) (sample : nat)
  (workflows : list Workflow) (runs : list (list WorkflowRun))
  (chunks : list string) (text : string) :
  result (fetchWorkflows w input) = Ok workflows ->
  result (fetchAllRuns w input workflows) = Ok runs ->
  conclude sample (gathered input workflows runs) = FinalAnswer chunks text ->
  result (workflowHealthFlow
            (genkitGenerateStream (promptFollower input conclude) sample)
            w input sendChunk) = Ok text.
Proof.
  intros Hlist Hruns Hc.
  assert (Hlen : length runs = length workflows)
    by (apply (mapM_ok_length _ _ _ Hruns)).
  rewrite follower_result, Hlist.
  destruct workflows as [| wf wfs].
  - destruct runs; [| discriminate].
    apply (follower_concludes w input conclude sample 4 [] []);
      [reflexivity | now rewrite Hc].
  - rewrite Hruns.
    apply (follower_concludes w input conclude sample 3 (wf :: wfs) runs);
      [exact Hlen | now rewrite Hc].
Qed.

Lemma assessment_is_engine_conclusion_witness :
  (exists runs,
      result (Sample.runsOf Sample.ciWorld 1) = Ok runs
      /\ recent_failure_streak 3 runs = true)
  /\ result (workflowHealthFlow
               (genkitGenerateStream
                  (Sample.answering (Report.render Sample.cautious)) 0)
               Sample.ciWorld Sample.acme sendChunk)
     = Ok (Report.render Sample.cautious).
Proof.
  split; [eexists; split; reflexivity |].
  eapply (assessment_is_engine_conclusion Sample.ciWorld Sample.acme
            (fun _ _ => FinalAnswer [Report.render Sample.cautious]
                                    (Report.render Sample.cautious)) 0);
    reflexivity.
Defined.

(** C2 (as stated) fails: the three most recent completed runs of CI
    failed, the engine follows the instructions and still answers
    Healthy at 85 percent; the flow returns that assessment. *)
Lemma failure_streak_can_be_healthy :
  (exists runs,
      result (Sample.runsOf Sample.ciWorld 1) = Ok runs
      /\ recent_failure_streak 3 runs = true)
  /\ result (workflowHealthFlow
               (genkitGenerateStream
                  (Sample.answering (Report.render Sample.optimistic)) 0)
               Sample.ciWorld Sample.acme sendChunk)
     = Ok (Report.render Sample.optimistic)
  /\ map (fun a => (ha_name a, ha_status a)) Sample.optimistic
     = [("CI", Healthy)].
Proof.
  split; [eexists; split; reflexivity |]. split; reflexivity.
Qed.

(** C8 (as the code has it). When the listing succeeds and the fetch of
    one workflow's runs fails, the request of an engine that follows the
    instructions fails as a whole, with the error of a workflow whose
    fetch failed: the tool throws, the tool loop passes the error on and
    the flow has no handler. *)
Theorem failed_run_fetch_fails_request (w : World) (input : RepoInput)
  (conclude : nat -> History -> ModelTurn) (sample : nat)
  (workflows : list Workflow) (wf : Workflow) (e : JsError) :
  result (fetchWorkflows w input) = Ok workflows ->
  In wf workflows ->
  result (fetchWorkflowRuns w (runsInputOf input wf)) = Throw e ->
  exists wf' e',
    In wf' workflows
    /\ result (fetchWorkflowRuns w (runsInputOf input wf')) = Throw e'
    /\ result (workflowHealthFlow
                 (genkitGenerateStream (promptFollower input conclude) sample)
                 w input sendChunk) = Throw e'.
Proof.
  intros Hlist Hin Hfail.
  destruct (mapM_throws
              (fun wf0 => fetchWorkflowRuns w (runsInputOf input wf0))
              workflows wf e Hin Hfail) as (wf' & e' & Hin' & Hfail' & Hall).
  exists wf', e'. split; [exact Hin' |]. split; [exact Hfail' |].
  rewrite follower_result, Hlist.
  destruct workflows as [| wf0 wfs]; [destruct Hin |].
  unfold fetchAllRuns, result. now rewrite Hall.
Qed.

Lemma failed_run_fetch_fails_request_witness :
  exists wf' e',
    result (fetchWorkflowRuns Sample.abcWorld (runsInputOf Sample.acme wf'))
    = Throw e'
    /\ result (workflowHealthFlow
                 (genkitGenerateStream (Sample.answering "{}") 0)
                 Sample.abcWorld Sample.acme sendChunk) = Throw e'.
Proof.
  destruct (failed_run_fetch_fails_request Sample.abcWorld Sample.acme
              (fun _ _ => FinalAnswer ["{}"] "{}") 0
              (match result (fetchWorkflows Sample.abcWorld Sample.acme) with
               | Ok workflows => workflows
               | Throw _ => []
               end)
              {| wf_id := 2; wf_name := "B";
                 wf_path := ".github/workflows/b.yml"; wf_state := "active";
                 wf_created_at := "2023-11-01T09:00:00Z";
                 wf_updated_at := "2024-01-15T10:30:00Z";
                 wf_url := "https://api.github.com/repos/acme/widgets/actions/workflows";
                 wf_html_url := "https://github.com/acme/widgets/actions";
                 wf_badge_url := "https://github.com/acme/widgets/badge.svg" |}
              (Error "Failed to fetch workflow runs from GitHub: Internal Server Error")
              eq_refl (or_intror (or_introl eq_refl)) eq_refl)
    as (wf' & e' & _ & Hfail & Hflow).
  exists wf', e'. split; [exact Hfail | exact Hflow].
Defined.

(** C8 (as stated) fails: the listing gives A, B and C, the runs of A
    and C can be fetched and those of B cannot; the request ends with
    the error of B and no report at all, whatever the engine would have
    concluded. *)
Lemma one_failed_fetch_loses_whole_report :
  (exists workflows,
      result (fetchWorkflows Sample.abcWorld Sample.acme) = Ok workflows
      /\ map wf_name workflows = ["A"; "B"; "C"])
  /\ (exists runs, result (Sample.runsOf Sample.abcWorld 1) = Ok runs)
  /\ (exists runs, result (Sample.runsOf Sample.abcWorld 3) = Ok runs)
  /\ result (Sample.runsOf Sample.abcWorld 2)
     = Throw (Error "Failed to fetch workflow runs from GitHub: Internal Server Error")
  /\ forall conclude sample,
      result (workflowHealthFlow
                (genkitGenerateStream (promptFollower Sample.acme conclude) sample)
                Sample.abcWorld Sample.acme sendChunk)
      = Throw (Error "Failed to fetch workflow runs from GitHub: Internal Server Error").
Proof.
  split; [eexists; split; reflexivity |].
  split; [eexists; reflexivity |]. split; [eexists; reflexivity |].
  split; [reflexivity |].
  intros conclude sample. rewrite follower_result. reflexivity.
Qed.

(** * Further properties *)

(** ** Events of the tools *)

Lemma events_bind {A B} (m : Eff A) (f : A -> Eff B) :
  events (bind m f)
  = events m ++ match result m with
                | Ok a => events (f a)
                | Throw _ => []
                end.
Proof.
  unfold events, result, bind.
  destruct (snd m); simpl; [reflexivity | now rewrite app_nil_r].
Qed.

Lemma events_fetch (w : World) (req : HttpRequest) :
  events (fetch w req) = [HttpGet req] /\ result (fetch w req) = github w req.
Proof. split; reflexivity. Qed.

Lemma events_parse {A} (schema : Schema A) (payload : json) :
  events (parse schema payload) = [].
Proof. unfold parse. now destruct (schema [] (Some payload)). Qed.

Lemma events_response_json (r : HttpResponse) : events (response_json r) = [].
Proof. unfold response_json. now destruct (resp_body r). Qed.

Lemma fetchWorkflows_events (w : World) (input : RepoInput) :
  events (fetchWorkflows w input)
  = [ ConsoleLog (JsString.template
                    ["Fetching workflows for "; owner input; "/"; repo input]);
      HttpGet (workflowsRequest w input) ].
Proof.
  unfold fetchWorkflows. fold (workflowsRequest w input).
  rewrite events_bind. cbn [console_log emit events result fst snd app].
  rewrite events_bind.
  destruct (events_fetch w (workflowsRequest w input)) as [-> ->].
  destruct (github w (workflowsRequest w input)) as [r | e]; [| reflexivity].
  cbn [app]. do 2 f_equal.
  destruct (negb (resp_ok r)); [reflexivity |].
  rewrite events_bind, events_response_json.
  destruct (result (response_json r)) as [payload |]; [| reflexivity].
  rewrite events_bind, events_parse.
  now destruct (result (parse workflowsResponseSchema payload)).
Qed.

Lemma fetchWorkflowRuns_events (w : World) (input : RunsInput) :
  events (fetchWorkflowRuns w input)
  = [ ConsoleLog (JsString.template
                    ["Fetching runs for workflow ";
                     JsString.of_number (workflowId input);
                     " in "; runs_owner input; "/"; runs_repo input]);
      HttpGet (workflowRunsRequest w input) ].
Proof.
  unfold fetchWorkflowRuns. fold (workflowRunsRequest w input).
  rewrite events_bind. cbn [console_log emit events result fst snd app].
  rewrite events_bind.
  destruct (events_fetch w (workflowRunsRequest w input)) as [-> ->].
  destruct (github w (workflowRunsRequest w input)) as [r | e]; [| reflexivity].
  cbn [app]. do 2 f_equal.
  destruct (negb (resp_ok r)); [reflexivity |].
  rewrite events_bind, events_response_json.
  destruct (result (response_json r)) as [payload |]; [| reflexivity].
  rewrite events_bind, events_parse.
  now destruct (result (parse workflowRunsResponseSchema payload)).
Qed.

(** X1. Whatever the upstream answers, and whether the tool succeeds or
    throws, [fetchWorkflows] and [fetchWorkflowRuns] each write one line
    to the console and send exactly one request: there is no retry and no
    request for a further page. *)
Theorem tools_send_exactly_one_request (w : World) :
  (forall input,
      sent (events (fetchWorkflows w input)) = [workflowsRequest w input]
      /\ length (events (fetchWorkflows w input)) = 2%nat)
  /\ (forall input,
      sent (events (fetchWorkflowRuns w input)) = [workflowRunsRequest w input]
      /\ length (events (fetchWorkflowRuns w input)) = 2%nat).
Proof.
  split; intros input.
  - rewrite fetchWorkflows_events. split; reflexivity.
  - rewrite fetchWorkflowRuns_events. split; reflexivity.
Qed.

(** ** Round trips and the payloads the tools accept *)

Lemma workflowSchema_accepts_decoded (path : list PathItem) (record : json)
  (wf : Workflow) :
  workflow_decoded_from record wf -> workflowSchema path (Some record) = Valid wf.
Proof.
  intros (o & -> & H1 & H2 & H3 & H4 & H5 & H6 & H7 & H8 & H9).
  unfold workflowSchema, field.
  rewrite H1, H2, H3, H4, H5, H6, H7, H8, H9. destruct wf. reflexivity.
Qed.

Lemma workflowRunSchema_accepts_decoded (path : list PathItem) (record : json)
  (run : WorkflowRun) :
  decoded_from record run -> workflowRunSchema path (Some record) = Valid run.
Proof.
  intros (o & -> & H1 & H2 & H3 & H4 & H5 & H6 & H7 & H8 & H9).
  unfold workflowRunSchema, field.
  rewrite H1, H2, H3, H4, H5, H6, H7, H8, H9.
  destruct run as [i n s c wid ca ua st url]. destruct c, st; reflexivity.
Qed.

Section ArrayPayloads.

Context {A : Type} (inner : Schema A).

Lemma validate_items_decoded (P : json -> A -> Prop) (items : list json)
  (values : list A) :
  (forall path item value, P item value -> inner path (Some item) = Valid value) ->
  Forall2 P items values ->
  forall path i, validate_items inner path i items = Valid values.
Proof.
  intros HP H. induction H as [| item value items values Hitem _ IH];
    intros path i; simpl; [reflexivity |].
  now rewrite (HP _ _ _ Hitem), IH.
Qed.

Lemma validate_items_valid (ok : json -> bool) (items : list json) :
  (forall path item, is_valid (inner path (Some item)) = ok item) ->
  forall path i,
    is_valid (validate_items inner path i items) = forallb ok items.
Proof.
  intros Hok. induction items as [| item rest IH]; intros path i; simpl;
    [reflexivity |].
  now rewrite is_valid_vap, is_valid_vmap, Hok, IH.
Qed.

End ArrayPayloads.

Lemma is_valid_true {A} (v : Validation A) :
  is_valid v = true <-> exists a, v = Valid a.
Proof.
  destruct v as [a | issues]; simpl; split; intros H;
    try discriminate; try (now exists a); try reflexivity.
  destruct H as (a & H). discriminate.
Qed.

Lemma runs_payload_accepted (payload : json) :
  is_valid (workflowRunsResponseSchema [] (Some payload)) = true
  <-> exists o n items,
      payload = JObj o
      /\ lookup "total_count" o = Some (JNum n)
      /\ lookup "workflow_runs" o = Some (JArr items)
      /\ all_well_formed workflowRunShape items = true.
Proof.
  split.
  - destruct payload as [| | | | | o]; try discriminate.
    unfold workflowRunsResponseSchema, field.
    rewrite is_valid_vap, is_valid_vmap, z_number_conforms.
    intros H. apply andb_true_iff in H. destruct H as [Hn Hruns].
    destruct (lookup "total_count" o) as [[| | n | | |] |] eqn:Hcount;
      try discriminate.
    destruct (lookup "workflow_runs" o) as [[| | | | items |] |] eqn:Hitems;
      try discriminate.
    exists o, n, items. split; [reflexivity |]. split; [exact Hcount |].
    split; [exact Hitems |].
    unfold z_array in Hruns.
    rewrite (validate_items_valid workflowRunSchema
               (fun record => negb (malformed workflowRunShape record)))
      in Hruns; [exact Hruns |].
    intros p item. apply workflowRunSchema_malformed.
  - intros (o & n & items & -> & Hn & Hruns & Hall).
    unfold workflowRunsResponseSchema, field.
    rewrite is_valid_vap, is_valid_vmap, z_number_conforms, Hn, Hruns.
    unfold z_array.
    rewrite (validate_items_valid workflowRunSchema
               (fun record => negb (malformed workflowRunShape record)));
      [exact Hall |].
    intros p item. apply workflowRunSchema_malformed.
Qed.

Lemma workflows_payload_accepted (payload : json) :
  is_valid (workflowsResponseSchema [] (Some payload)) = true
  <-> exists o n items,
      payload = JObj o
      /\ lookup "total_count" o = Some (JNum n)
      /\ lookup "workflows" o = Some (JArr items)
      /\ all_well_formed workflowShape items = true.
Proof.
  split.
  - destruct payload as [| | | | | o]; try discriminate.
    unfold workflowsResponseSchema, field.
    rewrite is_valid_vap, is_valid_vmap, z_number_conforms.
    intros H. apply andb_true_iff in H. destruct H as [Hn Hruns].
    destruct (lookup "total_count" o) as [[| | n | | |] |] eqn:Hcount;
      try discriminate.
    destruct (lookup "workflows" o) as [[| | | | items |] |] eqn:Hitems;
      try discriminate.
    exists o, n, items. split; [reflexivity |]. split; [exact Hcount |].
    split; [exact Hitems |].
    unfold z_array in Hruns.
    rewrite (validate_items_valid workflowSchema
               (fun record => negb (malformed workflowShape record)))
      in Hruns; [exact Hruns |].
    intros p item. apply workflowSchema_malformed.
  - intros (o & n & items & -> & Hn & Hruns & Hall).
    unfold workflowsResponseSchema, field.
    rewrite is_valid_vap, is_valid_vmap, z_number_conforms, Hn, Hruns.
    unfold z_array.
    rewrite (validate_items_valid workflowSchema
               (fun record => negb (malformed workflowShape record)));
      [exact Hall |].
    intros p item. apply workflowSchema_malformed.
Qed.

(** X2. Round trip for runs, the converse of what [fetchWorkflowRuns]
    decodes: when an ok response carries an object with any numeric
    [total_count] and, under [workflow_runs], an array whose records hold
    the fields of some runs under the keys of the schema (in any order,
    among any other keys), the tool returns exactly those runs, in the
    order of the array.  Other keys are dropped, [total_count] is not
    compared with the array, and runs of another workflow are not
    filtered out. *)
Theorem fetchWorkflowRuns_round_trip (w : World) (input : RunsInput)
  (r : HttpResponse) (o : list (string * json)) (n : Z)
  (items : list json) (runs : list WorkflowRun) :
  github w (workflowRunsRequest w input) = Ok r ->
  resp_ok r = true ->
  resp_body r = Some (JObj o) ->
  lookup "total_count" o = Some (JNum n) ->
  lookup "workflow_runs" o = Some (JArr items) ->
  Forall2 decoded_from items runs ->
  result (fetchWorkflowRuns w input) = Ok runs.
Proof.
  intros Hr Hok Hbody Hn Hitems Hruns.
  rewrite fetchWorkflowRuns_result, Hr, Hok, Hbody.
  unfold workflowRunsResponseSchema, field. rewrite Hn, Hitems.
  unfold z_array.
  rewrite (validate_items_decoded workflowRunSchema decoded_from items runs
             workflowRunSchema_accepts_decoded Hruns).
  reflexivity.
Qed.

(** X3. Round trip for workflows: the same for [fetchWorkflows] and the
    [workflows] array; an empty array gives an empty list and no error. *)
Theorem fetchWorkflows_round_trip (w : World) (input : RepoInput)
  (r : HttpResponse) (o : list (string * json)) (n : Z)
  (items : list json) (workflows : list Workflow) :
  github w (workflowsRequest w input) = Ok r ->
  resp_ok r = true ->
  resp_body r = Some (JObj o) ->
  lookup "total_count" o = Some (JNum n) ->
  lookup "workflows" o = Some (JArr items) ->
  Forall2 workflow_decoded_from items workflows ->
  result (fetchWorkflows w input) = Ok workflows.
Proof.
  intros Hr Hok Hbody Hn Hitems Hwfs.
  rewrite fetchWorkflows_result, Hr, Hok, Hbody.
  unfold workflowsResponseSchema, field. rewrite Hn, Hitems.
  unfold z_array.
  rewrite (validate_items_decoded workflowSchema workflow_decoded_from
             items workflows workflowSchema_accepts_decoded Hwfs).
  reflexivity.
Qed.

(** X4. The tools succeed exactly when the response is ok, its body is a
    JSON object with a numeric [total_count] and an array under
    [workflow_runs] (or [workflows]), and no record of the array is
    malformed.  So a payload without [total_count] is refused although
    the tools never use that number, and a key holding [null] for a
    nullable field is accepted while a missing key is not. *)
Theorem tools_succeed_exactly_on_well_formed_payloads (w : World) :
  (forall input,
      (exists runs, result (fetchWorkflowRuns w input) = Ok runs)
      <-> exists r o n items,
          github w (workflowRunsRequest w input) = Ok r
          /\ resp_ok r = true
          /\ resp_body r = Some (JObj o)
          /\ lookup "total_count" o = Some (JNum n)
          /\ lookup "workflow_runs" o = Some (JArr items)
          /\ all_well_formed workflowRunShape items = true)
  /\ (forall input,
      (exists workflows, result (fetchWorkflows w input) = Ok workflows)
      <-> exists r o n items,
          github w (workflowsRequest w input) = Ok r
          /\ resp_ok r = true
          /\ resp_body r = Some (JObj o)
          /\ lookup "total_count" o = Some (JNum n)
          /\ lookup "workflows" o = Some (JArr items)
          /\ all_well_formed workflowShape items = true).
Proof.
  split; intros input.
  - rewrite fetchWorkflowRuns_result. split.
    + intros (runs & H).
      destruct (github w (workflowRunsRequest w input)) as [r | e];
        [| discriminate].
      destruct (resp_ok r) eqn:Hok; [| discriminate].
      destruct (resp_body r) as [payload |] eqn:Hbody; [| discriminate].
      destruct (workflowRunsResponseSchema [] (Some payload)) as [parsed |]
        eqn:Hp; [| discriminate].
      assert (Hv : is_valid (workflowRunsResponseSchema [] (Some payload)) = true)
        by now rewrite Hp.
      apply runs_payload_accepted in Hv.
      destruct Hv as (o & n & items & -> & Hn & Hitems & Hall).
      now exists r, o, n, items.
    + intros (r & o & n & items & -> & -> & -> & Hn & Hitems & Hall).
      assert (Hv : is_valid (workflowRunsResponseSchema [] (Some (JObj o))) = true)
        by (apply runs_payload_accepted; now exists o, n, items).
      apply is_valid_true in Hv. destruct Hv as (parsed & ->).
      now exists (rr_workflow_runs parsed).
  - rewrite fetchWorkflows_result. split.
    + intros (workflows & H).
      destruct (github w (workflowsRequest w input)) as [r | e];
        [| discriminate].
      destruct (resp_ok r) eqn:Hok; [| discriminate].
      destruct (resp_body r) as [payload |] eqn:Hbody; [| discriminate].
      destruct (workflowsResponseSchema [] (Some payload)) as [parsed |]
        eqn:Hp; [| discriminate].
      assert (Hv : is_valid (workflowsResponseSchema [] (Some payload)) = true)
        by now rewrite Hp.
      apply workflows_payload_accepted in Hv.
      destruct Hv as (o & n & items & -> & Hn & Hitems & Hall).
      now exists r, o, n, items.
    + intros (r & o & n & items & -> & -> & -> & Hn & Hitems & Hall).
      assert (Hv : is_valid (workflowsResponseSchema [] (Some (JObj o))) = true)
        by (apply workflows_payload_accepted; now exists o, n, items).
      apply is_valid_true in Hv. destruct Hv as (parsed & ->).
      now exists (wr_workflows parsed).
Qed.

Lemma fetchWorkflowRuns_round_trip_witness :
  result (fetchWorkflowRuns Sample.githubWorld
            {| runs_owner := "octocat"; runs_repo := "hello-world";
               workflowId := 161335 |})
  = Ok [ {| run_id := 30433642; run_name := "Build"; run_status := "queued";
            run_conclusion := None; run_workflow_id := 161335;
            run_created_at := "2020-01-22T19:33:08Z";
            run_updated_at := "2020-01-22T19:33:08Z";
            run_run_started_at := Some "2020-01-22T19:33:08Z";
            run_html_url := "https://github.com/octocat/hello-world/actions/runs/30433642" |} ].
Proof.
  refine (fetchWorkflowRuns_round_trip Sample.githubWorld
            {| runs_owner := "octocat"; runs_repo := "hello-world";
               workflowId := 161335 |}
            (Sample.respond200 (Sample.runsPayload [Sample.githubRun]))
            _ 1 [Sample.githubRun] _ eq_refl eq_refl eq_refl eq_refl eq_refl _).
  constructor; [| constructor].
  eexists. split; [reflexivity |]. repeat split; reflexivity.
Defined.

Lemma fetchWorkflows_round_trip_witness :
  result (fetchWorkflows Sample.githubWorld Sample.octocat)
  = Ok [ {| wf_id := 161335; wf_name := "CI";
            wf_path := ".github/workflows/blank.yaml"; wf_state := "active";
            wf_created_at := "2020-01-08T23:48:37.000-08:00";
            wf_updated_at := "2020-01-08T23:50:21.000-08:00";
            wf_url := "https://api.github.com/repos/octocat/hello-world/actions/workflows/161335";
            wf_html_url := "https://github.com/octocat/hello-world/blob/master/.github/workflows/161335";
            wf_badge_url := "https://github.com/octocat/hello-world/workflows/CI/badge.svg" |} ].
Proof.
  refine (fetchWorkflows_round_trip Sample.githubWorld Sample.octocat
            (Sample.respond200 (Sample.workflowsPayload [Sample.githubWorkflow]))
            _ 1 [Sample.githubWorkflow] _ eq_refl eq_refl eq_refl eq_refl eq_refl _).
  constructor; [| constructor].
  eexists. split; [reflexivity |]. repeat split; reflexivity.
Defined.

(** ** The client: what reaches the deployed function *)

Section Trimming.

Import JsString.

Lemma split_pieces_without (sep : ascii) (s : string) :
  Forall (fun piece => contains sep piece = false) (split sep s).
Proof.
  induction s as [| c rest IH]; simpl.
  - repeat constructor.
  - destruct (Ascii.eqb c sep) eqn:Hc.
    + constructor; [reflexivity | exact IH].
    + destruct (split sep rest) as [| piece pieces].
      * repeat constructor. simpl. now rewrite Hc.
      * inversion IH as [| ? ? Hpiece Hpieces]; subst.
        constructor; [| exact Hpieces]. simpl. now rewrite Hc, Hpiece.
Qed.

Lemma contains_trimStart (c : ascii) (s : string) :
  contains c s = false -> contains c (trimStart s) = false.
Proof.
  induction s as [| d rest IH]; simpl; [reflexivity |].
  intros H. destruct (is_white_space d); [| exact H].
  apply orb_false_iff in H. now apply IH.
Qed.

Lemma contains_trimEnd (c : ascii) (s : string) :
  contains c s = false -> contains c (trimEnd s) = false.
Proof.
  induction s as [| d rest IH]; simpl; [reflexivity |].
  intros H. apply orb_false_iff in H. destruct H as [Hd Hrest].
  specialize (IH Hrest).
  destruct (trimEnd rest) as [| k kept].
  - destruct (is_white_space d); simpl; [reflexivity | now rewrite Hd].
  - simpl. simpl in IH. now rewrite Hd, IH.
Qed.

Lemma contains_trim (c : ascii) (s : string) :
  contains c s = false -> contains c (trim s) = false.
Proof. intros H. apply contains_trimEnd, contains_trimStart, H. Qed.

Lemma trimEnd_idempotent (s : string) : trimEnd (trimEnd s) = trimEnd s.
Proof.
  induction s as [| c rest IH]; simpl; [reflexivity |].
  destruct (trimEnd rest) as [| k kept] eqn:Hrest.
  - destruct (is_white_space c) eqn:Hc; simpl; [reflexivity | now rewrite Hc].
  - simpl. simpl in IH. now rewrite IH.
Qed.

Lemma trimStart_head (s : string) :
  trimStart s = ""
  \/ exists c rest, trimStart s = String c rest /\ is_white_space c = false.
Proof.
  induction s as [| c rest IH]; simpl; [now left |].
  destruct (is_white_space c) eqn:Hc; [exact IH |].
  right. now exists c, rest.
Qed.

Lemma trimEnd_keeps_head (c : ascii) (rest : string) :
  is_white_space c = false ->
  exists kept, trimEnd (String c rest) = String c kept.
Proof.
  intros Hc. simpl. destruct (trimEnd rest) as [| k kept].
  - rewrite Hc. now exists "".
  - now exists (String k kept).
Qed.

(** Trimming leaves nothing more to trim. *)
Lemma trim_idempotent (s : string) : trim (trim s) = trim s.
Proof.
  unfold trim. destruct (trimStart_head s) as [-> | (c & rest & -> & Hc)];
    [reflexivity |].
  destruct (trimEnd_keeps_head c rest Hc) as (kept & Hkept).
  rewrite Hkept. simpl trimStart. rewrite Hc, <- Hkept.
  apply trimEnd_idempotent.
Qed.

Lemma blank_trim (s : string) : blank s = true -> trim s = "".
Proof.
  unfold trim. induction s as [| c rest IH]; simpl; [reflexivity |].
  intros H. apply andb_true_iff in H. destruct H as [Hc Hrest].
  rewrite Hc. now apply IH.
Qed.

End Trimming.

(** X5. Whatever the user types, the client either rejects it or calls
    the deployed function with an owner and a repository name that are
    both non-empty, contain no separator and have no white space at
    either end. *)
Theorem client_sends_only_clean_names (callable : Callable) (repoInput : string) :
  mutationFn callable repoInput = throw (Error invalidRepositoryMessage)
  \/ exists o r,
      mutationFn callable repoInput = callWith callable o r
      /\ o <> "" /\ r <> ""
      /\ JsString.contains slash o = false
      /\ JsString.contains slash r = false
      /\ JsString.trim o = o /\ JsString.trim r = r.
Proof.
  pose proof (split_pieces_without slash repoInput) as Hpieces.
  destruct (JsString.split slash repoInput) as [| first [| second more]] eqn:Hs.
  - left. unfold mutationFn. fold slash. now rewrite Hs.
  - left. unfold mutationFn. fold slash. rewrite Hs. simpl.
    now rewrite orb_true_r.
  - rewrite (mutationFn_parts callable _ _ _ _ Hs).
    inversion Hpieces as [| ? ? H1 Hrest]; subst.
    inversion Hrest as [| ? ? H2 _]; subst.
    destruct (String.eqb (JsString.trim first) "") eqn:Ho; [now left |].
    destruct (String.eqb (JsString.trim second) "") eqn:Hr; [now left |].
    right. exists (JsString.trim first), (JsString.trim second).
    apply String.eqb_neq in Ho, Hr.
    repeat split; auto using contains_trim, trim_idempotent.
Qed.

(** X6. An owner or a repository name made of white space only is
    rejected like an empty one, before anything is called. *)
Theorem blank_names_are_rejected (callable : Callable) (a b : string) :
  JsString.contains slash a = false ->
  JsString.contains slash b = false ->
  blank a || blank b = true ->
  mutationFn callable (a ++ "/" ++ b)%string
  = throw (Error invalidRepositoryMessage).
Proof.
  intros Ha Hb Hblank.
  assert (Hs : JsString.split slash (a ++ "/" ++ b)%string = [a; b]).
  { replace (a ++ "/" ++ b)%string with (a ++ String slash b)%string
      by reflexivity.
    now rewrite (split_first _ _ _ Ha), (split_without _ _ Hb). }
  rewrite (mutationFn_parts callable _ _ _ _ Hs).
  apply orb_true_iff in Hblank. destruct Hblank as [H | H];
    rewrite (blank_trim _ H); simpl; [reflexivity | now rewrite orb_true_r].
Qed.

Lemma blank_names_are_rejected_witness :
  mutationFn (Sample.echo "report") "acme/   "
  = throw (Error invalidRepositoryMessage).
Proof.
  apply (blank_names_are_rejected (Sample.echo "report") "acme" "   ");
    reflexivity.
Defined.

(** ** From the typed text to the generation *)





(** ** The handlers of the mutation *)

Lemma alerts_app (xs ys : list UiEvent) :
  alerts (xs ++ ys) = alerts xs ++ alerts ys.
Proof.
  induction xs as [| x rest IH]; simpl; [reflexivity |].
  destruct x; simpl; now rewrite IH.
Qed.

Lemma alerts_performed (evs : list Event) : alerts (map Performed evs) = [].
Proof. induction evs as [| ev rest IH]; simpl; [reflexivity | exact IH]. Qed.

(** X8. Running the mutation opens the roast card exactly when the
    analysis succeeded; when it failed, for whatever reason, the card is
    left as it was and the user gets one alert, always with the same
    text, the thrown error going to the console only. *)
Theorem mutation_opens_card_only_on_success (callable : Callable)
  (repoInput : string) (app : App) :
  match result (mutationFn callable repoInput) with
  | Ok data =>
      snd (mutate callable repoInput app) = {| isRoastCardOpen := true |}
      /\ alerts (fst (mutate callable repoInput app)) = []
  | Throw error =>
      snd (mutate callable repoInput app) = app
      /\ alerts (fst (mutate callable repoInput app)) = [analysisFailedMessage]
      /\ In (ConsoleError "Analysis failed:" error)
            (fst (mutate callable repoInput app))
  end.
Proof.
  unfold mutate.
  destruct (result (mutationFn callable repoInput)) as [text | error];
    cbn [fst snd onSuccess onError];
    rewrite alerts_app, alerts_performed; repeat split.
  apply in_or_app. right. now left.
Qed.

(** X9. For a malformed identifier the user sees the general alert, not
    the message of the input error, which is only written to the
    console; nothing else happens and the card keeps its state. *)
Theorem malformed_identifier_shows_general_alert (callable : Callable)
  (repoInput : string) (app : App) :
  malformed_identifier repoInput ->
  mutate callable repoInput app
  = ( [ ConsoleError "Analysis failed:" (Error invalidRepositoryMessage);
        Alert analysisFailedMessage ],
      app ).
Proof.
  intros H. unfold mutate, result, events.
  now rewrite (mutationFn_rejects callable _ H).
Qed.

Lemma malformed_identifier_shows_general_alert_witness :
  mutate (Sample.echo "report") "not-a-repo" initialApp
  = ( [ ConsoleError "Analysis failed:"
          (Error "Please enter a valid repository in format: owner/repo");
        Alert "Failed to analyze workflows. Please check the repository name and try again." ],
      {| isRoastCardOpen := false |} ).
Proof.
  apply (malformed_identifier_shows_general_alert (Sample.echo "report")
           "not-a-repo" initialApp).
  apply no_separator. reflexivity.
Defined.

(** ** The prompt *)

Lemma append_assoc (a b c : string) :
  ((a ++ b) ++ c)%string = (a ++ (b ++ c))%string.
Proof. induction a as [| x a IH]; simpl; [reflexivity | now rewrite IH]. Qed.

(** X10. The owner and the repository name reach the prompt as they
    are, once, between a pair of double quotes and joined by a slash;
    nothing in them is escaped, and the rest of the prompt does not
    depend on them. *)
Theorem prompt_inlines_names_verbatim :
  exists head tail : string,
    forall owner repo,
      healthPrompt owner repo
      = (head ++ JsString.dq ++ owner ++ "/" ++ repo ++ JsString.dq ++ tail)%string.
Proof.
  pose (head := substring 0 208 (healthPrompt "" "")).
  pose (tail := substring 211 2427 (healthPrompt "" "")).
  exists head, tail. intros owner repo.
  vm_compute in head. vm_compute in tail. subst head tail.
  unfold healthPrompt, JsString.join, JsString.template, JsString.dq, JsString.lf.
  cbn [String.concat String.append].
  rewrite !append_assoc. cbn [String.append].
  rewrite !append_assoc. cbn [String.append].
  reflexivity.
Qed.

(** ** The input of the flow *)

(** X12. The flow's own input schema accepts exactly the objects that
    hold a string under [owner] and a string under [repo], whatever the
    strings: empty names and names with separators pass; only the client
    checks the identifier. *)
Theorem flowInputSchema_accepts_any_two_strings (payload : json)
  (input : RepoInput) :
  result (parse flowInputSchema payload) = Ok input
  <-> exists o,
      payload = JObj o
      /\ lookup "owner" o = Some (JStr (owner input))
      /\ lookup "repo" o = Some (JStr (repo input)).
Proof.
  unfold result, parse. split.
  - destruct (flowInputSchema [] (Some payload)) as [parsed | issues] eqn:Hp;
      simpl; intros H; [| discriminate].
    inversion H; subst parsed; clear H.
    destruct payload as [| | | | | o]; try discriminate.
    unfold flowInputSchema, field in Hp.
    apply vap_valid in Hp. destruct Hp as (f & r & Hf & Hr & Heq).
    apply vmap_valid in Hf. destruct Hf as (a & Ha & ->).
    apply z_string_valid in Ha, Hr. subst input. exists o. now repeat split.
  - intros (o & -> & Ho & Hr). unfold flowInputSchema, field.
    rewrite Ho, Hr. destruct input. reflexivity.
Qed.

(** ** The failures of the tools *)

(** X13. A tool throws for one of four reasons, tried in this order:
    [fetch] itself rejected, and its error is passed on as it is; the
    response is not ok, and the error is the tool's own [Error], whatever
    the body holds; the body of an ok response is not JSON; the payload is
    refused by the schema. *)
Theorem tools_fail_in_four_ways (w : World) :
  (forall input e,
      result (fetchWorkflowRuns w input) = Throw e ->
      tool_failure workflowRunsFailure
        (fun payload => is_valid (workflowRunsResponseSchema [] (Some payload)))
        (github w (workflowRunsRequest w input)) e)
  /\ (forall input e,
      result (fetchWorkflows w input) = Throw e ->
      tool_failure workflowsFailure
        (fun payload => is_valid (workflowsResponseSchema [] (Some payload)))
        (github w (workflowsRequest w input)) e).
Proof.
  split; intros input e.
  - rewrite fetchWorkflowRuns_result.
    destruct (github w (workflowRunsRequest w input)) as [r | e'].
    + destruct (resp_ok r) eqn:Hok.
      * destruct (resp_body r) as [payload |] eqn:Hbody.
        -- destruct (workflowRunsResponseSchema [] (Some payload))
             as [parsed | issues] eqn:Hp; intros H; inversion H; subst.
           apply payload_refused with payload; auto. now rewrite Hp.
        -- intros H; inversion H; subst. now apply body_not_json.
      * intros H; inversion H; subst. now apply response_not_ok.
    + intros H; inversion H; subst. apply fetch_rejected.
  - rewrite fetchWorkflows_result.
    destruct (github w (workflowsRequest w input)) as [r | e'].
    + destruct (resp_ok r) eqn:Hok.
      * destruct (resp_body r) as [payload |] eqn:Hbody.
        -- destruct (workflowsResponseSchema [] (Some payload))
             as [parsed | issues] eqn:Hp; intros H; inversion H; subst.
           apply payload_refused with payload; auto. now rewrite Hp.
        -- intros H; inversion H; subst. now apply body_not_json.
      * intros H; inversion H; subst. now apply response_not_ok.
    + intros H; inversion H; subst. apply fetch_rejected.
Qed.

Lemma tools_fail_in_four_ways_witness :
  tool_failure workflowRunsFailure
    (fun payload => is_valid (workflowRunsResponseSchema [] (Some payload)))
    (github Sample.abcWorld
       (workflowRunsRequest Sample.abcWorld
          {| runs_owner := "acme"; runs_repo := "widgets"; workflowId := 2 |}))
    (Error "Failed to fetch workflow runs from GitHub: Internal Server Error").
Proof.
  apply (proj1 (tools_fail_in_four_ways Sample.abcWorld)
           {| runs_owner := "acme"; runs_repo := "widgets"; workflowId := 2 |}).
  reflexivity.
Defined.

Lemma tools_succeed_exactly_on_well_formed_payloads_witness :
  exists runs, result (Sample.runsOf Sample.ciWorld 1) = Ok runs.
Proof.
  apply (proj1 (tools_succeed_exactly_on_well_formed_payloads Sample.ciWorld)
           {| runs_owner := "acme"; runs_repo := "widgets"; workflowId := 1 |}).
  exists (Sample.respond200 (Sample.runsPayload Sample.ciRuns)).
  eexists _, _, _. repeat split; reflexivity.
Defined.

Lemma flowInputSchema_accepts_any_two_strings_witness :
  result (parse flowInputSchema (JObj [("owner", JStr ""); ("repo", JStr "a/b")]))
  = Ok {| owner := ""; repo := "a/b" |}.
Proof.
  apply flowInputSchema_accepts_any_two_strings.
  eexists. repeat split; reflexivity.
Defined.
